(** * The RDMC registry service: manifest mapper and record upsert

    A shallow embedding of [rdmc_mapping.py], [models.py], [schemas.py]
    and [api.py], and the properties of the mapper and of the ingest
    path that the service description states.

    Python values that come out of a JSON request body are modelled by
    the type [json]; Python exceptions by the [Raises] branch of
    [outcome].  Text is modelled by [string], one [ascii] per code point
    (code points below 256). *)

From Stdlib Require Import List String Ascii ZArith Bool Lia Arith.
Import ListNotations.

Set Warnings "-register-all".

Local Open Scope string_scope.
Local Open Scope list_scope.

(* ================================================================== *)
(** ** Python values and the primitives the service uses *)
(* ================================================================== *)

Module Py.

(** A value decoded from JSON: [None], [bool], [int], [float], [str],
    [list], [dict].  A float is kept as its IEEE-754 binary64 bit
    pattern; a dict keeps its items in insertion order (keys are
    pairwise distinct in a decoded object, and [dict_get] reads the
    first item of a key). *)
Inductive json : Type :=
| JNull
| JBool (b : bool)
| JInt (n : Z)
| JFloat (bits : Z)
| JStr (s : string)
| JArr (items : list json)
| JObj (items : list (string * json)).

Definition dict : Type := list (string * json).

(** Exceptions the modelled code can raise. *)
Inductive exn : Type :=
| AttributeError
| TypeError
| KeyError
| IntegrityError
| HTTPException (status_code : Z) (detail : string).

Inductive outcome (A : Type) : Type :=
| Returns (a : A)
| Raises (e : exn).

Arguments Returns {A} a.
Arguments Raises {A} e.

Definition bind {A B : Type} (m : outcome A) (k : A -> outcome B) : outcome B :=
  match m with
  | Returns a => k a
  | Raises e => Raises e
  end.

Definition returns {A : Type} (m : outcome A) : bool :=
  match m with
  | Returns _ => true
  | Raises _ => false
  end.

(** Truth value of an object ([bool(x)]): [None], [False], zero, and the
    empty string, list and dict are false.  Both float zeros are false. *)
Definition truthy (x : json) : bool :=
  match x with
  | JNull => false
  | JBool b => b
  | JInt n => negb (n =? 0)%Z
  | JFloat bits => negb (Z.land bits (2 ^ 63 - 1) =? 0)%Z
  | JStr s => negb (s =? "")
  | JArr l => match l with [] => false | _ :: _ => true end
  | JObj kv => match kv with [] => false | _ :: _ => true end
  end.

(** [a or b]. *)
Definition py_or (a b : json) : json := if truthy a then a else b.

(** Truth value and [or] on an [Optional[str]]. *)
Definition truthy_opt (x : option string) : bool :=
  match x with
  | Some s => negb (s =? "")
  | None => false
  end.

Definition opt_or (a b : option string) : option string :=
  if truthy_opt a then a else b.

(** [d.get(k, default)] and [d.get(k)] on a dict. *)
Fixpoint dict_get_default (d : dict) (k : string) (default : json) : json :=
  match d with
  | [] => default
  | (k', v) :: d' => if k' =? k then v else dict_get_default d' k default
  end.

Definition dict_get (d : dict) (k : string) : json := dict_get_default d k JNull.

(** [x.get(k, default)] on an arbitrary object: only a dict has [get]. *)
Definition get_default (x : json) (k : string) (default : json) : outcome json :=
  match x with
  | JObj d => Returns (dict_get_default d k default)
  | _ => Raises AttributeError
  end.

Definition get (x : json) (k : string) : outcome json := get_default x k JNull.

(** [x[k]] with a string key: a dict raises [KeyError] on a missing key,
    a string or a list refuses a string index, anything else is not
    subscriptable. *)
Fixpoint dict_getitem (d : dict) (k : string) : outcome json :=
  match d with
  | [] => Raises KeyError
  | (k', v) :: d' => if k' =? k then Returns v else dict_getitem d' k
  end.

Definition getitem (x : json) (k : string) : outcome json :=
  match x with
  | JObj d => dict_getitem d k
  | _ => Raises TypeError
  end.

(** [len(x)]. *)
Definition len (x : json) : outcome nat :=
  match x with
  | JStr s => Returns (String.length s)
  | JArr l => Returns (List.length l)
  | JObj d => Returns (List.length d)
  | _ => Raises TypeError
  end.

(** The items a [for] loop over [x] visits: the elements of a list, the
    characters of a string, the keys of a dict. *)
Definition iterate (x : json) : outcome (list json) :=
  match x with
  | JArr l => Returns l
  | JStr s => Returns (map (fun c => JStr (String c EmptyString)) (list_ascii_of_string s))
  | JObj d => Returns (map (fun kv => JStr (fst kv)) d)
  | _ => Raises TypeError
  end.

(** Whitespace as [str.isspace] has it below code point 256. *)
Definition is_space (c : ascii) : bool :=
  let n := nat_of_ascii c in
  (((9 <=? n) && (n <=? 13)) || ((28 <=? n) && (n <=? 32))
   || (n =? 133) || (n =? 160))%nat.

Fixpoint lstrip (s : string) : string :=
  match s with
  | EmptyString => EmptyString
  | String c s' => if is_space c then lstrip s' else s
  end.

Fixpoint rstrip (s : string) : string :=
  match s with
  | EmptyString => EmptyString
  | String c s' =>
      match rstrip s' with
      | EmptyString => if is_space c then EmptyString else String c EmptyString
      | r => String c r
      end
  end.

(** A string of whitespace only. *)
Fixpoint blank (s : string) : bool :=
  match s with
  | EmptyString => true
  | String c s' => is_space c && blank s'
  end.

(** [s.strip()]. *)
Definition strip (s : string) : string := rstrip (lstrip s).

(** [c.lower()] below code point 256. *)
Definition lower_char (c : ascii) : ascii :=
  let n := nat_of_ascii c in
  if (((65 <=? n) && (n <=? 90))
      || ((192 <=? n) && (n <=? 222) && negb (n =? 215)))%nat
  then ascii_of_nat (n + 32)
  else c.

Fixpoint lower (s : string) : string :=
  match s with
  | EmptyString => EmptyString
  | String c s' => String (lower_char c) (lower s')
  end.

(** [x.strip()] and [x.lower()] on an arbitrary object: only a string
    has these methods. *)
Definition str_strip (x : json) : outcome string :=
  match x with
  | JStr s => Returns (strip s)
  | _ => Raises AttributeError
  end.

Definition str_lower (x : json) : outcome string :=
  match x with
  | JStr s => Returns (lower s)
  | _ => Raises AttributeError
  end.

(** Whether a dict has the key. *)
Definition has_key (d : dict) (k : string) : bool :=
  existsb (fun kv => fst kv =? k) d.

(** ["sep".join(parts)]. *)
Definition join (sep : string) (parts : list string) : string :=
  String.concat sep parts.

End Py.

Export Py.

Declare Scope outcome_scope.
Delimit Scope outcome_scope with outcome.
Notation "x <- m ;; k" := (bind m (fun x => k))
  (at level 100, m at next level, right associativity) : outcome_scope.
Notation "' p <- m ;; k" := (bind m (fun x => match x with p => k end))
  (at level 100, p pattern, m at next level, right associativity) : outcome_scope.
Local Open Scope outcome_scope.

(* ================================================================== *)
(** ** rdmc_mapping.py *)
(* ================================================================== *)

Module Mapping.

(** One element of [contributor_rows]. *)
Record contributor_row : Type := {
  position : nat;
  first_name : string;
  last_name : string;
  email : json;
  affiliation : json;
  orcid : json;
  role : json
}.

(** The [rdmc_fields] mapping. *)
Record rdmc_fields : Type := {
  title : json;
  rdmc_version : json;
  manifest_schema_version : json;
  manifest_file_path : json;
  description : json;
  subject : json;
  license : json;
  keywords_raw : json;
  container_concept : json;
  contributors_count : nat;
  contributors_text : option string;
  artifacts_raw : json;
  artifact_count : nat;
  has_public_artifacts : bool;
  has_restricted_artifacts : bool;
  has_private_artifacts : bool;
  has_data_resources : bool;
  has_software_resources : bool;
  has_links : bool
}.

(** The six loop variables [has_public] ... [has_links]. *)
Record flags : Type := {
  has_public : bool;
  has_restricted : bool;
  has_private : bool;
  has_data : bool;
  has_software : bool;
  has_links_ : bool
}.

Definition no_flags : flags :=
  {| has_public := false; has_restricted := false; has_private := false;
     has_data := false; has_software := false; has_links_ := false |}.

Definition set_public (f : flags) : flags :=
  {| has_public := true; has_restricted := has_restricted f;
     has_private := has_private f; has_data := has_data f;
     has_software := has_software f; has_links_ := has_links_ f |}.

Definition set_restricted (f : flags) : flags :=
  {| has_public := has_public f; has_restricted := true;
     has_private := has_private f; has_data := has_data f;
     has_software := has_software f; has_links_ := has_links_ f |}.

Definition set_private (f : flags) : flags :=
  {| has_public := has_public f; has_restricted := has_restricted f;
     has_private := true; has_data := has_data f;
     has_software := has_software f; has_links_ := has_links_ f |}.

Definition set_data (f : flags) : flags :=
  {| has_public := has_public f; has_restricted := has_restricted f;
     has_private := has_private f; has_data := true;
     has_software := has_software f; has_links_ := has_links_ f |}.

Definition set_software (f : flags) : flags :=
  {| has_public := has_public f; has_restricted := has_restricted f;
     has_private := has_private f; has_data := has_data f;
     has_software := true; has_links_ := has_links_ f |}.

Definition set_links (f : flags) : flags :=
  {| has_public := has_public f; has_restricted := has_restricted f;
     has_private := has_private f; has_data := has_data f;
     has_software := has_software f; has_links_ := true |}.

Section Mapper.

(** The conversion an f-string replacement field applies to its value
    ([format(x, "")], which for the values of a decoded document is
    [str(x)]).  It is a primitive of the language, total on these
    values, and the identity on strings. *)
Variable fmt : json -> string.

(** The body of the contributor loop: the state is the pair
    [(contributor_rows, contrib_parts)]. *)
Definition contributor_step (pos : nat) (c : json)
    (acc : list contributor_row * list string)
    : outcome (list contributor_row * list string) :=
  fn <- get c "first_name" ;;
  first <- str_strip (py_or fn (JStr "")) ;;
  ln <- get c "last_name" ;;
  last <- str_strip (py_or ln (JStr "")) ;;
  email_ <- get c "email" ;;
  affiliation_ <- get c "affiliation" ;;
  orcid_ <- get c "orcid" ;;
  role_ <- get c "role" ;;
  let row := {| position := pos; first_name := first; last_name := last;
                email := email_; affiliation := affiliation_;
                orcid := orcid_; role := role_ |} in
  let piece := strip (first ++ " " ++ last)%string in
  let piece :=
    if truthy role_ then (piece ++ " (" ++ fmt role_ ++ ")")%string else piece in
  let piece :=
    if truthy orcid_ then (piece ++ ", ORCID: " ++ fmt orcid_)%string else piece in
  let piece :=
    if truthy affiliation_ then (piece ++ ", " ++ fmt affiliation_)%string
    else piece in
  Returns (fst acc ++ [row],
           if negb (piece =? "") then snd acc ++ [piece] else snd acc).

(** [for pos, c in enumerate(contributors)], started at [pos]. *)
Fixpoint contributors_loop (cs : list json) (pos : nat)
    (acc : list contributor_row * list string)
    : outcome (list contributor_row * list string) :=
  match cs with
  | [] => Returns acc
  | c :: cs' =>
      acc' <- contributor_step pos c acc ;;
      contributors_loop cs' (S pos) acc'
  end.

(** The body shared by the [files] and the [folders] loop. *)
Definition resource_step (item : json) (f : flags) : outcome flags :=
  rt <- get item "resource type" ;;
  rtype <- str_lower (py_or rt (JStr "")) ;;
  Returns (if rtype =? "data" then set_data f
           else if rtype =? "software" then set_software f
           else f).

Fixpoint resources_loop (items : list json) (f : flags) : outcome flags :=
  match items with
  | [] => Returns f
  | item :: items' =>
      f' <- resource_step item f ;;
      resources_loop items' f'
  end.

(** The body of [for art in artifacts_details]. *)
Definition artifact_step (art : json) (f : flags) : outcome flags :=
  al <- get art "access_level" ;;
  access_level <- str_lower (py_or al (JStr "")) ;;
  let f := if access_level =? "public" then set_public f
           else if access_level =? "restricted" then set_restricted f
           else if access_level =? "private" then set_private f
           else f in
  fs <- get_default art "files" (JArr []) ;;
  files <- iterate (py_or fs (JArr [])) ;;
  f <- resources_loop files f ;;
  ds <- get_default art "folders" (JArr []) ;;
  folders <- iterate (py_or ds (JArr [])) ;;
  f <- resources_loop folders f ;;
  lk <- get art "links" ;;
  if truthy lk then
    links <- getitem art "links" ;;
    n <- len links ;;
    Returns (if (0 <? n)%nat then set_links f else f)
  else Returns f.

Fixpoint artifacts_loop (arts : list json) (f : flags) : outcome flags :=
  match arts with
  | [] => Returns f
  | art :: arts' =>
      f' <- artifact_step art f ;;
      artifacts_loop arts' f'
  end.

Definition derive_fields_from_manifest (manifest : dict)
    : outcome (rdmc_fields * list contributor_row) :=
  let title_ := py_or (dict_get manifest "RDMC Title") (dict_get manifest "title") in
  let rdmc_version_ := dict_get manifest "RDMC Version" in
  let manifest_schema_version_ := dict_get manifest "Manifest-Schemaversion" in
  let manifest_file_path_ := dict_get manifest "Manifest File Path" in
  let rdmc_metadata :=
    py_or (dict_get_default manifest "RDMC Metadata" (JObj [])) (JObj []) in
  description_ <- get rdmc_metadata "Description" ;;
  subject_ <- get rdmc_metadata "Subject" ;;
  license_ <- get rdmc_metadata "License" ;;
  keywords_raw_ <- get rdmc_metadata "Keywords" ;;
  container_concept_ <- get rdmc_metadata "container-concept" ;;
  cs <- get_default rdmc_metadata "Contributors" (JArr []) ;;
  let contributors := py_or cs (JArr []) in
  contributors_count_ <- len contributors ;;
  entries <- iterate contributors ;;
  '(contributor_rows, contrib_parts) <- contributors_loop entries 0 ([], []) ;;
  let contributors_text_ :=
    match contrib_parts with
    | [] => None
    | _ :: _ => Some (join "; " contrib_parts)
    end in
  let artifacts_raw_ := dict_get manifest "Artifacts" in
  let artifacts_details :=
    py_or (dict_get_default manifest "Artifacts Details" (JArr [])) (JArr []) in
  artifact_count_ <- len artifacts_details ;;
  arts <- iterate artifacts_details ;;
  f <- artifacts_loop arts no_flags ;;
  Returns
    ({| title := py_or title_ (JStr "(no title)");
        rdmc_version := rdmc_version_;
        manifest_schema_version := manifest_schema_version_;
        manifest_file_path := manifest_file_path_;
        description := description_;
        subject := subject_;
        license := license_;
        keywords_raw := keywords_raw_;
        container_concept := container_concept_;
        contributors_count := contributors_count_;
        contributors_text := contributors_text_;
        artifacts_raw := artifacts_raw_;
        artifact_count := artifact_count_;
        has_public_artifacts := has_public f;
        has_restricted_artifacts := has_restricted f;
        has_private_artifacts := has_private f;
        has_data_resources := has_data f;
        has_software_resources := has_software f;
        has_links := has_links_ f |},
     contributor_rows).

End Mapper.

(** *** The mapping as the service description words it

    The definitions below restate the mapper declaratively (one entry at
    a time, with [map], [filter] and [existsb]); the results further
    down compare them with the loops above. *)

(** The entries of an optional array: missing, null or empty gives no
    entries. *)
Definition entries_of (x : json) : list json :=
  match x with
  | JArr l => l
  | _ => []
  end.

(** A field of an entry, [JNull] when absent. *)
Definition field_of (c : json) (k : string) : json :=
  match c with
  | JObj d => dict_get d k
  | _ => JNull
  end.

(** A text field of an entry after the given normalisation, empty when
    absent. *)
Definition text_of (norm : string -> string) (c : json) (k : string) : string :=
  match py_or (field_of c k) (JStr "") with
  | JStr s => norm s
  | _ => ""
  end.

Definition spec_metadata (manifest : dict) : json :=
  py_or (dict_get manifest "RDMC Metadata") (JObj []).

Definition spec_contributors (manifest : dict) : list json :=
  entries_of (field_of (spec_metadata manifest) "Contributors").

Definition spec_artifacts (manifest : dict) : list json :=
  entries_of (dict_get manifest "Artifacts Details").

(** "position = i", names stripped and never null, the rest passed
    through. *)
Definition spec_row (i : nat) (c : json) : contributor_row :=
  {| position := i;
     first_name := text_of strip c "first_name";
     last_name := text_of strip c "last_name";
     email := field_of c "email";
     affiliation := field_of c "affiliation";
     orcid := field_of c "orcid";
     role := field_of c "role" |}.

Fixpoint spec_rows_from (i : nat) (cs : list json) : list contributor_row :=
  match cs with
  | [] => []
  | c :: cs' => spec_row i c :: spec_rows_from (S i) cs'
  end.

Definition spec_rows (manifest : dict) : list contributor_row :=
  spec_rows_from 0 (spec_contributors manifest).

(** A value is present when it is neither missing, null nor empty. *)
Definition present (x : json) : bool := truthy x.

Definition nonempty (s : string) : bool := negb (s =? "").

Section Words.

Variable fmt : json -> string.

(** The display fragment of one contributor entry. *)
Definition spec_fragment (c : json) : string :=
  let names :=
    strip (text_of strip c "first_name" ++ " " ++ text_of strip c "last_name")%string in
  let with_role :=
    if present (field_of c "role")
    then (names ++ " (" ++ fmt (field_of c "role") ++ ")")%string else names in
  let with_orcid :=
    if present (field_of c "orcid")
    then (with_role ++ ", ORCID: " ++ fmt (field_of c "orcid"))%string
    else with_role in
  if present (field_of c "affiliation")
  then (with_orcid ++ ", " ++ fmt (field_of c "affiliation"))%string
  else with_orcid.

Definition spec_fragments (cs : list json) : list string :=
  filter nonempty (map spec_fragment cs).

Definition spec_contributors_text (cs : list json) : option string :=
  match spec_fragments cs with
  | [] => None
  | _ :: _ => Some (join "; " (spec_fragments cs))
  end.

End Words.

(** The lower-cased access level of an artifact entry. *)
Definition access_level_of (art : json) : string := text_of lower art "access_level".

Definition some_access_level (level : string) (arts : list json) : bool :=
  existsb (fun art => access_level_of art =? level) arts.

(** The entries of the [files] and of the [folders] list of an artifact. *)
Definition resources_of (art : json) : list json :=
  entries_of (field_of art "files") ++ entries_of (field_of art "folders").

Definition some_resource_type (kind : string) (arts : list json) : bool :=
  existsb (fun art =>
             existsb (fun r => text_of lower r "resource type" =? kind)
                     (resources_of art)) arts.

Definition some_links (arts : list json) : bool :=
  existsb (fun art => present (field_of art "links")) arts.

(** "first non-empty wins", else the placeholder. *)
Definition spec_title (manifest : dict) : json :=
  if present (dict_get manifest "RDMC Title") then dict_get manifest "RDMC Title"
  else if present (dict_get manifest "title") then dict_get manifest "title"
  else JStr "(no title)".

(** *** Documents the mapper accepts

    Every optional part is missing, null, empty, or of the JSON type
    the mapper reads it as. *)

Definition absent_or (shape : json -> bool) (x : json) : bool :=
  negb (truthy x) || shape x.

Definition is_text (x : json) : bool :=
  match x with
  | JStr _ => true
  | _ => false
  end.

Definition is_sized (x : json) : bool :=
  match x with
  | JStr _ | JArr _ | JObj _ => true
  | _ => false
  end.

Definition object_with (fields : dict -> bool) (x : json) : bool :=
  match x with
  | JObj d => fields d
  | _ => false
  end.

Definition array_of (shape : json -> bool) (x : json) : bool :=
  match x with
  | JArr l => forallb shape l
  | _ => false
  end.

Definition contributor_shaped : json -> bool :=
  object_with (fun d =>
    absent_or is_text (dict_get d "first_name")
    && absent_or is_text (dict_get d "last_name")).

Definition resource_shaped : json -> bool :=
  object_with (fun d => absent_or is_text (dict_get d "resource type")).

Definition artifact_shaped : json -> bool :=
  object_with (fun d =>
    absent_or is_text (dict_get d "access_level")
    && absent_or (array_of resource_shaped) (dict_get d "files")
    && absent_or (array_of resource_shaped) (dict_get d "folders")
    && absent_or is_sized (dict_get d "links")).

Definition metadata_shaped : json -> bool :=
  object_with (fun d =>
    absent_or (array_of contributor_shaped) (dict_get d "Contributors")).

Definition well_shaped (manifest : dict) : bool :=
  absent_or metadata_shaped (dict_get manifest "RDMC Metadata")
  && absent_or (array_of artifact_shaped) (dict_get manifest "Artifacts Details").

(** *** The effect of one loop iteration on the flags *)

Definition mark_resource (item : json) (f : flags) : flags :=
  if text_of lower item "resource type" =? "data" then set_data f
  else if text_of lower item "resource type" =? "software" then set_software f
  else f.

Definition mark_resources (items : list json) (f : flags) : flags :=
  fold_left (fun f item => mark_resource item f) items f.

Definition mark_access (art : json) (f : flags) : flags :=
  if access_level_of art =? "public" then set_public f
  else if access_level_of art =? "restricted" then set_restricted f
  else if access_level_of art =? "private" then set_private f
  else f.

Definition mark_links (art : json) (f : flags) : flags :=
  if present (field_of art "links") then set_links f else f.

Definition mark_artifact (art : json) (f : flags) : flags :=
  mark_links art
    (mark_resources (entries_of (field_of art "folders"))
       (mark_resources (entries_of (field_of art "files"))
          (mark_access art f))).

Definition mark_artifacts (arts : list json) (f : flags) : flags :=
  fold_left (fun f art => mark_artifact art f) arts f.

(** *** Sample documents *)

(** The f-string conversion where it is the identity, on text; the
    samples below format text values only. *)
Definition fmt_text (x : json) : string :=
  match x with
  | JStr s => s
  | _ => ""
  end.

Definition ada : json :=
  JObj [("first_name", JStr "Ada"); ("last_name", JStr "Lovelace");
        ("role", JStr "PI"); ("orcid", JStr "0000-0001");
        ("affiliation", JStr "Dept X")].

Definition grace : json :=
  JObj [("first_name", JStr " Grace "); ("last_name", JStr "Hopper");
        ("email", JStr "grace@example.org")].

(** Two named contributors and one entry with nothing to display. *)
Definition sample_manifest : dict :=
  [("RDMC Title", JStr "Engines");
   ("RDMC Metadata",
    JObj [("Subject", JStr "computing");
          ("Contributors", JArr [ada; JObj []; grace])]);
   ("Artifacts Details",
    JArr [JObj [("access_level", JStr "Public");
                ("files", JArr [JObj [("resource type", JStr "Data")]])];
          JObj [("access_level", JStr "private");
                ("links", JArr [JStr "https://example.org"])]])].

(** Every optional part present but empty. *)
Definition hollow_manifest : dict :=
  [("RDMC Metadata", JObj [("Contributors", JArr [JObj []])]);
   ("Artifacts Details",
    JArr [JObj [("files", JArr []); ("folders", JNull); ("links", JArr [])]])].

(** *** The whole mapping, declaratively *)

Definition spec_fields (fmt : json -> string) (manifest : dict) : rdmc_fields :=
  let arts := spec_artifacts manifest in
  let metadata := spec_metadata manifest in
  {| title := spec_title manifest;
     rdmc_version := dict_get manifest "RDMC Version";
     manifest_schema_version := dict_get manifest "Manifest-Schemaversion";
     manifest_file_path := dict_get manifest "Manifest File Path";
     description := field_of metadata "Description";
     subject := field_of metadata "Subject";
     license := field_of metadata "License";
     keywords_raw := field_of metadata "Keywords";
     container_concept := field_of metadata "container-concept";
     contributors_count := List.length (spec_contributors manifest);
     contributors_text := spec_contributors_text fmt (spec_contributors manifest);
     artifacts_raw := dict_get manifest "Artifacts";
     artifact_count := List.length arts;
     has_public_artifacts := some_access_level "public" arts;
     has_restricted_artifacts := some_access_level "restricted" arts;
     has_private_artifacts := some_access_level "private" arts;
     has_data_resources := some_resource_type "data" arts;
     has_software_resources := some_resource_type "software" arts;
     has_links := some_links arts |}.

End Mapping.

(* ================================================================== *)
(** ** models.py and schemas.py *)
(* ================================================================== *)

(** A [TIMESTAMP] value, as a count of clock ticks. *)
Definition timestamp : Type := Z.

(** The attributes of an [Rdmc] object in the session, as the Python
    values the handlers read and assign ([None] is [None] or [JNull]).
    What PostgreSQL makes of a value when it stores it belongs to the
    database, see [Orm.backend]. *)
Module Rdmc.
Record t : Type := {
  id : option Z;
  external_id : string;
  external_id_scheme : option string;
  pid : option string;
  pid_scheme : option string;
  pid_status : option string;
  pid_minted_at : option timestamp;
  rdmc_version : json;
  manifest_schema_version : json;
  manifest_file_path : json;
  title : json;
  description : json;
  subject : json;
  license : json;
  keywords_raw : json;
  container_concept : json;
  contributors_count : option nat;
  contributors_text : option string;
  artifacts_raw : json;
  artifact_count : option nat;
  has_public_artifacts : option bool;
  has_restricted_artifacts : option bool;
  has_private_artifacts : option bool;
  has_data_resources : option bool;
  has_software_resources : option bool;
  has_links : option bool;
  manifest : option dict;
  search_vector : option string;
  manifest_hash : option string;
  is_latest : option bool;
  created_at : option timestamp;
  updated_at : option timestamp
}.
End Rdmc.

(** The attributes of an [RdmcContributor] object in the session. *)
Module RdmcContributor.
Record t : Type := {
  id : option Z;
  rdmc_id : option Z;
  position : nat;
  first_name : string;
  last_name : string;
  email : json;
  affiliation : json;
  orcid : json;
  role : json;
  created_at : option timestamp
}.
End RdmcContributor.

(** The request body of [POST /rdmcs]. *)
Module RdmcIn.
Record t : Type := {
  external_id : string;
  external_id_scheme : option string;
  pid : option string;
  pid_scheme : option string;
  manifest : dict
}.
End RdmcIn.

(* ================================================================== *)
(** ** The object-relational layer: mapper declarations and the session *)
(* ================================================================== *)

Module Orm.

(** *** The declarations of models.py

    A mapped class declares columns and relationships; a relationship
    names its target class and, possibly, the property on the other
    side, either one that the other class declares itself
    ([back_populates]) or one to be created on it ([backref]). *)

Inductive other_side : Type :=
| one_way
| back_populates (property : string)
| backref (property : string).

Record relationship : Type := {
  property : string;
  target : string;
  link : other_side
}.

Record mapped_class : Type := {
  class_name : string;
  columns : list string;
  relationships : list relationship
}.

(** [class Rdmc(Base)]. *)
Definition Rdmc : mapped_class :=
  {| class_name := "Rdmc";
     columns :=
       ["id"; "external_id"; "external_id_scheme"; "pid"; "pid_scheme";
        "pid_status"; "pid_minted_at"; "rdmc_version";
        "manifest_schema_version"; "manifest_file_path"; "title";
        "description"; "subject"; "license"; "keywords_raw";
        "container_concept"; "contributors_count"; "contributors_text";
        "artifacts_raw"; "artifact_count"; "has_public_artifacts";
        "has_restricted_artifacts"; "has_private_artifacts";
        "has_data_resources"; "has_software_resources"; "has_links";
        "manifest"; "search_vector"; "manifest_hash"; "is_latest";
        "created_at"; "updated_at"];
     relationships :=
       [{| property := "contributors"; target := "RdmcContributor";
           link := back_populates "rdmc" |}] |}.

(** [class RdmcContributor(Base)]. *)
Definition RdmcContributor : mapped_class :=
  {| class_name := "RdmcContributor";
     columns :=
       ["id"; "rdmc_id"; "position"; "first_name"; "last_name"; "email";
        "affiliation"; "orcid"; "role"; "created_at"];
     relationships :=
       [{| property := "rdmc"; target := "Rdmc";
           link := backref "contributors" |}] |}.

(** The classes of [Base], in declaration order. *)
Definition registry : list mapped_class := [Rdmc; RdmcContributor].

(** The exceptions of the layer, beside those of [Py.exn]:
    [sqlalchemy.exc.ArgumentError], [sqlalchemy.exc.InvalidRequestError],
    and whatever a statement sent to the database raises. *)
Inductive error : Type :=
| Exn (e : exn)
| ArgumentError
| InvalidRequestError
| DatabaseError (message : string).

Inductive answer (A : Type) : Type :=
| Done (a : A)
| Failed (e : error).

Arguments Done {A} a.
Arguments Failed {A} e.

(** *** Mapper configuration

    Before its first statement the library configures all mappers.  A
    relationship must name a mapped class; [back_populates] must name a
    property the target has; [backref] creates the property on the
    target and is refused when the target already has a property of
    that name. *)

Definition has_property (c : mapped_class) (name : string) : bool :=
  existsb (String.eqb name) (columns c)
  || existsb (fun r => property r =? name) (relationships c).

Fixpoint find_class (classes : list mapped_class) (name : string)
    : option mapped_class :=
  match classes with
  | [] => None
  | c :: rest => if class_name c =? name then Some c else find_class rest name
  end.

(** The target with the property a [backref] creates on it. *)
Definition with_backref (name source : string) (c : mapped_class) : mapped_class :=
  {| class_name := class_name c;
     columns := columns c;
     relationships :=
       relationships c
       ++ [{| property := name; target := source; link := one_way |}] |}.

Definition replace_class (c : mapped_class) (classes : list mapped_class)
    : list mapped_class :=
  map (fun c' => if class_name c' =? class_name c then c else c') classes.

(** One relationship of class [source], against the classes as
    configured so far. *)
Definition configure_relationship (source : string) (r : relationship)
    (classes : list mapped_class) : answer (list mapped_class) :=
  match find_class classes (target r) with
  | None => Failed InvalidRequestError
  | Some t =>
      match link r with
      | one_way => Done classes
      | back_populates name =>
          if has_property t name then Done classes
          else Failed InvalidRequestError
      | backref name =>
          if has_property t name then Failed ArgumentError
          else Done (replace_class (with_backref name source t) classes)
      end
  end.

Fixpoint configure_relationships (source : string) (rs : list relationship)
    (classes : list mapped_class) : answer (list mapped_class) :=
  match rs with
  | [] => Done classes
  | r :: rest =>
      match configure_relationship source r classes with
      | Done classes' => configure_relationships source rest classes'
      | Failed e => Failed e
      end
  end.

(** All classes of [todo], in order. *)
Fixpoint configure_classes (todo classes : list mapped_class)
    : answer (list mapped_class) :=
  match todo with
  | [] => Done classes
  | c :: rest =>
      match configure_relationships (class_name c) (relationships c) classes with
      | Done classes' => configure_classes rest classes'
      | Failed e => Failed e
      end
  end.

Definition configure (classes : list mapped_class) : answer unit :=
  match configure_classes classes classes with
  | Done _ => Done tt
  | Failed e => Failed e
  end.

(** What the interpreter process has done with the mappers so far: it
    has not yet tried to configure them, or a configuration has
    failed.  A failed configuration is remembered, and every later
    attempt raises [InvalidRequestError] at once. *)
Inductive process : Type :=
| first_use
| after_failure.

Definition check_configure (proc : process) : answer unit :=
  match proc with
  | first_use => configure registry
  | after_failure => Failed InvalidRequestError
  end.

(** The exception a failed configuration raises in a process, given
    the declarations of [registry]. *)
Definition mapper_error (proc : process) : error :=
  match proc with
  | first_use => ArgumentError
  | after_failure => InvalidRequestError
  end.

(** The declarations with [RdmcContributor.rdmc] naming the existing
    property ([back_populates="contributors"]) instead of creating
    it. *)
Definition registry_with_back_populates : list mapped_class :=
  [Rdmc;
   {| class_name := "RdmcContributor";
      columns := columns RdmcContributor;
      relationships :=
        [{| property := "rdmc"; target := "Rdmc";
            link := back_populates "contributors" |}] |}].

(** *** Statements

    A [select(Rdmc)] statement as the handlers build it. *)

(** A column of one of the two entities. *)
Inductive column : Type :=
| Rdmc_ (name : string)
| RdmcContributor_ (name : string).

(** [column == value]. *)
Inductive criterion : Type :=
| equals (c : column) (value : string).

Record statement : Type := {
  joined : list string;
  criteria : list criterion;
  is_distinct : bool;
  ordering : list column
}.

Definition select_Rdmc : statement :=
  {| joined := []; criteria := []; is_distinct := false; ordering := [] |}.

(** [stmt.join(entity)]. *)
Definition join_ (stmt : statement) (entity : string) : statement :=
  {| joined := joined stmt ++ [entity]; criteria := criteria stmt;
     is_distinct := is_distinct stmt; ordering := ordering stmt |}.

(** [stmt.where(c)]. *)
Definition where_ (stmt : statement) (c : criterion) : statement :=
  {| joined := joined stmt; criteria := criteria stmt ++ [c];
     is_distinct := is_distinct stmt; ordering := ordering stmt |}.

(** [stmt.distinct()]. *)
Definition distinct_ (stmt : statement) : statement :=
  {| joined := joined stmt; criteria := criteria stmt;
     is_distinct := true; ordering := ordering stmt |}.

(** [stmt.order_by(c.desc())]. *)
Definition order_by_desc (stmt : statement) (c : column) : statement :=
  {| joined := joined stmt; criteria := criteria stmt;
     is_distinct := is_distinct stmt; ordering := ordering stmt ++ [c] |}.

(** *** The database and the session

    The database is PostgreSQL, reached through a [Session]; neither is
    part of the repository.  [store] is the state of the two, and a
    [backend] says what each operation of the handlers answers and
    changes there: nothing is assumed about it. *)

Record backend (store : Type) : Type := {
  (* the objects a SELECT loads *)
  execute : statement -> store -> answer (list Rdmc.t) * store;
  (* [db.add(obj)] *)
  add_rdmc : Rdmc.t -> store -> answer unit * store;
  add_contributor : RdmcContributor.t -> store -> answer unit * store;
  (* [db.flush()], with the parent object pending or changed; gives
      the object as it is afterwards *)
  flush : Rdmc.t -> store -> answer Rdmc.t * store;
  (* the DELETE of the contributor rows with this [rdmc_id] *)
  delete_contributors : option Z -> store -> answer unit * store;
  (* [db.commit()] *)
  commit : store -> answer unit * store;
  (* [db.refresh(obj)] *)
  refresh : Rdmc.t -> store -> answer Rdmc.t * store
}.

Arguments execute {store}.
Arguments add_rdmc {store}.
Arguments add_contributor {store}.
Arguments flush {store}.
Arguments delete_contributors {store}.
Arguments commit {store}.
Arguments refresh {store}.

(** What a request runs in: the interpreter process with its mappers,
    and the database. *)
Record world (store : Type) : Type := {
  mappers : process;
  database : store
}.

Arguments mappers {store}.
Arguments database {store}.

(** The world once a configuration has failed. *)
Definition failed {store : Type} (w : world store) : world store :=
  {| mappers := after_failure; database := database w |}.

(** A computation of a handler: an answer or an exception, and the
    world after it. *)
Definition session (store A : Type) : Type :=
  world store -> answer A * world store.

Definition ret {store A : Type} (a : A) : session store A :=
  fun w => (Done a, w).

Definition raise {store A : Type} (e : error) : session store A :=
  fun w => (Failed e, w).

Definition then_ {store A B : Type} (m : session store A)
    (k : A -> session store B) : session store B :=
  fun w =>
    match m w with
    | (Done a, w') => k a w'
    | (Failed e, w') => (Failed e, w')
    end.

(** A value computed by Python code that may raise. *)
Definition lift {store A : Type} (o : outcome A) : session store A :=
  match o with
  | Returns a => ret a
  | Raises e => raise (Exn e)
  end.

(** An operation of the database. *)
Definition on_database {store A : Type} (op : store -> answer A * store)
    : session store A :=
  fun w =>
    match op (database w) with
    | (a, s) => (a, {| mappers := mappers w; database := s |})
    end.

(** The configuration of the mappers, which the library runs before a
    mapped class is queried or instantiated. *)
Definition configured {store : Type} : session store unit :=
  fun w =>
    match check_configure (mappers w) with
    | Done _ => (Done tt, w)
    | Failed e => (Failed e, failed w)
    end.

End Orm.

Declare Scope session_scope.
Delimit Scope session_scope with session.
Notation "x <~ m ;; k" := (Orm.then_ m (fun x => k))
  (at level 100, m at next level, right associativity) : session_scope.
Notation "' p <~ m ;; k" := (Orm.then_ m (fun x => match x with p => k end))
  (at level 100, p pattern, m at next level, right associativity) : session_scope.

(* ================================================================== *)
(** ** api.py *)
(* ================================================================== *)

Module Api.

Import Orm.

Local Open Scope session_scope.

(** What a handler returns, before the response model renders it. *)
Inductive body : Type :=
| Status (text : string)
| Detail (r : Rdmc.t)
| Summaries (rows : list Rdmc.t).

(** The attributes of [Rdmc(external_id=...)]: every other one is
    [None]. *)
Definition new_rdmc (external_id : string) : Rdmc.t :=
  {| Rdmc.id := None;
     Rdmc.external_id := external_id;
     Rdmc.external_id_scheme := None;
     Rdmc.pid := None;
     Rdmc.pid_scheme := None;
     Rdmc.pid_status := None;
     Rdmc.pid_minted_at := None;
     Rdmc.rdmc_version := JNull;
     Rdmc.manifest_schema_version := JNull;
     Rdmc.manifest_file_path := JNull;
     Rdmc.title := JNull;
     Rdmc.description := JNull;
     Rdmc.subject := JNull;
     Rdmc.license := JNull;
     Rdmc.keywords_raw := JNull;
     Rdmc.container_concept := JNull;
     Rdmc.contributors_count := None;
     Rdmc.contributors_text := None;
     Rdmc.artifacts_raw := JNull;
     Rdmc.artifact_count := None;
     Rdmc.has_public_artifacts := None;
     Rdmc.has_restricted_artifacts := None;
     Rdmc.has_private_artifacts := None;
     Rdmc.has_data_resources := None;
     Rdmc.has_software_resources := None;
     Rdmc.has_links := None;
     Rdmc.manifest := None;
     Rdmc.search_vector := None;
     Rdmc.manifest_hash := None;
     Rdmc.is_latest := None;
     Rdmc.created_at := None;
     Rdmc.updated_at := None |}.

(** The assignments of [ingest_rdmc] to the attributes of the loaded or
    new object. *)
Definition assign (payload : RdmcIn.t) (fields : Mapping.rdmc_fields)
    (rdmc : Rdmc.t) : Rdmc.t :=
  {| Rdmc.id := Rdmc.id rdmc;
     Rdmc.external_id := Rdmc.external_id rdmc;
     Rdmc.external_id_scheme := RdmcIn.external_id_scheme payload;
     Rdmc.pid := opt_or (RdmcIn.pid payload) (Rdmc.pid rdmc);
     Rdmc.pid_scheme := opt_or (RdmcIn.pid_scheme payload) (Rdmc.pid_scheme rdmc);
     Rdmc.pid_status :=
       if truthy_opt (RdmcIn.pid payload) then Some "minted"
       else Rdmc.pid_status rdmc;
     Rdmc.pid_minted_at := Rdmc.pid_minted_at rdmc;
     Rdmc.rdmc_version := Mapping.rdmc_version fields;
     Rdmc.manifest_schema_version := Mapping.manifest_schema_version fields;
     Rdmc.manifest_file_path := Mapping.manifest_file_path fields;
     Rdmc.title := Mapping.title fields;
     Rdmc.description := Mapping.description fields;
     Rdmc.subject := Mapping.subject fields;
     Rdmc.license := Mapping.license fields;
     Rdmc.keywords_raw := Mapping.keywords_raw fields;
     Rdmc.container_concept := Mapping.container_concept fields;
     Rdmc.contributors_count := Some (Mapping.contributors_count fields);
     Rdmc.contributors_text := Mapping.contributors_text fields;
     Rdmc.artifacts_raw := Mapping.artifacts_raw fields;
     Rdmc.artifact_count := Some (Mapping.artifact_count fields);
     Rdmc.has_public_artifacts := Some (Mapping.has_public_artifacts fields);
     Rdmc.has_restricted_artifacts :=
       Some (Mapping.has_restricted_artifacts fields);
     Rdmc.has_private_artifacts := Some (Mapping.has_private_artifacts fields);
     Rdmc.has_data_resources := Some (Mapping.has_data_resources fields);
     Rdmc.has_software_resources := Some (Mapping.has_software_resources fields);
     Rdmc.has_links := Some (Mapping.has_links fields);
     Rdmc.manifest := Some (RdmcIn.manifest payload);
     Rdmc.search_vector := Rdmc.search_vector rdmc;
     Rdmc.manifest_hash := Rdmc.manifest_hash rdmc;
     Rdmc.is_latest := Rdmc.is_latest rdmc;
     Rdmc.created_at := Rdmc.created_at rdmc;
     Rdmc.updated_at := Rdmc.updated_at rdmc |}.

(** The attributes of [RdmcContributor(rdmc_id=rdmc.id,
    position=c["position"], ...)]. *)
Definition new_contributor (key : option Z) (c : Mapping.contributor_row)
    : RdmcContributor.t :=
  {| RdmcContributor.id := None;
     RdmcContributor.rdmc_id := key;
     RdmcContributor.position := Mapping.position c;
     RdmcContributor.first_name := Mapping.first_name c;
     RdmcContributor.last_name := Mapping.last_name c;
     RdmcContributor.email := Mapping.email c;
     RdmcContributor.affiliation := Mapping.affiliation c;
     RdmcContributor.orcid := Mapping.orcid c;
     RdmcContributor.role := Mapping.role c;
     RdmcContributor.created_at := None |}.

Section Handlers.

(** The f-string conversion, see [Mapping]. *)
Variable fmt : json -> string.

(** The database and what it does. *)
Variable store : Type.
Variable db : backend store.

(** [db.scalars(stmt)] for a statement over [Rdmc]. *)
Definition scalars (stmt : statement) : session store (list Rdmc.t) :=
  _ <~ configured ;;
  on_database (execute db stmt).

(** The call of a mapped class. *)
Definition construct {A : Type} (attributes : A) : session store A :=
  _ <~ configured ;;
  ret attributes.

(** [db.query(RdmcContributor).filter(RdmcContributor.rdmc_id ==
    key).delete(synchronize_session=False)]. *)
Definition query_delete (key : option Z) : session store unit :=
  _ <~ configured ;;
  on_database (delete_contributors db key).

(** [GET /]. *)
Definition health_check : session store body := ret (Status "ok").

(** [for c in contributor_rows: db.add(RdmcContributor(...))]. *)
Fixpoint add_contributors (key : option Z)
    (contributor_rows : list Mapping.contributor_row) : session store unit :=
  match contributor_rows with
  | [] => ret tt
  | c :: rest =>
      contrib <~ construct (new_contributor key c) ;;
      _ <~ on_database (add_contributor db contrib) ;;
      add_contributors key rest
  end.

(** [POST /rdmcs]. *)
Definition ingest_rdmc (payload : RdmcIn.t) : session store Rdmc.t :=
  let stmt :=
    where_ select_Rdmc
           (equals (Rdmc_ "external_id") (RdmcIn.external_id payload)) in
  rows <~ scalars stmt ;;
  let existing := hd_error rows in
  '(rdmc_fields, contributor_rows) <~
     lift (Mapping.derive_fields_from_manifest fmt (RdmcIn.manifest payload)) ;;
  rdmc <~ match existing with
          | Some found => ret found
          | None =>
              created <~ construct (new_rdmc (RdmcIn.external_id payload)) ;;
              _ <~ on_database (add_rdmc db created) ;;
              ret created
          end ;;
  let rdmc := assign payload rdmc_fields rdmc in
  rdmc <~ on_database (flush db rdmc) ;;
  _ <~ query_delete (Rdmc.id rdmc) ;;
  _ <~ add_contributors (Rdmc.id rdmc) contributor_rows ;;
  _ <~ on_database (commit db) ;;
  rdmc <~ on_database (refresh db rdmc) ;;
  ret rdmc.

(** [if param: stmt = stmt.where(column == param)]. *)
Definition where_if (param : option string) (c : column) (stmt : statement)
    : statement :=
  match param with
  | Some value => if truthy_opt param then where_ stmt (equals c value) else stmt
  | None => stmt
  end.

(** [GET /rdmcs]. *)
Definition list_rdmcs (subject license container_concept : option string)
    : session store body :=
  let stmt := select_Rdmc in
  let stmt := where_if subject (Rdmc_ "subject") stmt in
  let stmt := where_if license (Rdmc_ "license") stmt in
  let stmt := where_if container_concept (Rdmc_ "container_concept") stmt in
  let stmt := order_by_desc stmt (Rdmc_ "created_at") in
  rows <~ scalars stmt ;;
  ret (Summaries rows).

(** [GET /rdmcs/{external_id}]. *)
Definition get_rdmc (external_id : string) : session store body :=
  let stmt := where_ select_Rdmc (equals (Rdmc_ "external_id") external_id) in
  rows <~ scalars stmt ;;
  match hd_error rows with
  | Some rdmc => ret (Detail rdmc)
  | None => raise (Exn (HTTPException 404 "RDMC not found"))
  end.

(** The handler registered for [GET /rdmcs/by-contributor]. *)
Definition rdmcs_by_contributor (orcid email : option string)
    : session store body :=
  if negb (truthy_opt orcid) && negb (truthy_opt email)
  then raise (Exn (HTTPException 400 "Provide at least one of: orcid, email"))
  else
    let stmt := join_ select_Rdmc "RdmcContributor" in
    let stmt := where_if orcid (RdmcContributor_ "orcid") stmt in
    let stmt := where_if email (RdmcContributor_ "email") stmt in
    let stmt := order_by_desc (distinct_ stmt) (Rdmc_ "created_at") in
    rdmcs <~ scalars stmt ;;
    ret (Summaries rdmcs).

End Handlers.

(** *** The router

    The routes of [router], in the order the decorators register them.
    A request is served by the first route whose method and path both
    match; a path parameter matches any one non-empty segment. *)

Inductive http_method : Type := GET | POST.

Inductive segment : Type :=
| Literal (text : string)
| Capture (name : string).

Inductive endpoint : Type :=
| health_check_endpoint
| ingest_rdmc_endpoint
| list_rdmcs_endpoint
| get_rdmc_endpoint
| rdmcs_by_contributor_endpoint.

Definition routes : list (http_method * list segment * endpoint) :=
  [ (GET, [], health_check_endpoint);
    (POST, [Literal "rdmcs"], ingest_rdmc_endpoint);
    (GET, [Literal "rdmcs"], list_rdmcs_endpoint);
    (GET, [Literal "rdmcs"; Capture "external_id"], get_rdmc_endpoint);
    (GET, [Literal "rdmcs"; Literal "by-contributor"],
     rdmcs_by_contributor_endpoint) ].

Definition method_eqb (a b : http_method) : bool :=
  match a, b with
  | GET, GET | POST, POST => true
  | _, _ => false
  end.

(** Matching a path, segment by segment; the result binds the path
    parameters. *)
Fixpoint match_path (pattern : list segment) (path : list string)
    : option (list (string * string)) :=
  match pattern, path with
  | [], [] => Some []
  | Literal text :: pattern', s :: path' =>
      if s =? text then match_path pattern' path' else None
  | Capture name :: pattern', s :: path' =>
      if s =? "" then None
      else option_map (cons (name, s)) (match_path pattern' path')
  | _, _ => None
  end.

Fixpoint resolve (table : list (http_method * list segment * endpoint))
    (method : http_method) (path : list string)
    : option (endpoint * list (string * string)) :=
  match table with
  | [] => None
  | (m, pattern, e) :: table' =>
      match match_path pattern path with
      | Some params => if method_eqb m method then Some (e, params)
                       else resolve table' method path
      | None => resolve table' method path
      end
  end.

(** The value of a path parameter. *)
Fixpoint path_param (params : list (string * string)) (name : string)
    : option string :=
  match params with
  | [] => None
  | (n, v) :: params' => if n =? name then Some v else path_param params' name
  end.

(** The value of a query parameter declared [Optional[str]]: of a
    repeated parameter the handler gets the last value. *)
Fixpoint query_param (query : list (string * string)) (name : string)
    : option string :=
  match query with
  | [] => None
  | (n, v) :: query' =>
      match query_param query' name with
      | Some later => Some later
      | None => if n =? name then Some v else None
      end
  end.

Section Serving.

Variable fmt : json -> string.
Variable store : Type.
Variable db : backend store.

(** The handler call that serves a GET request, if a route of the
    router does; a path parameter the handler needs is always bound by
    its route. *)
Definition serve_get (path : list string) (query : list (string * string))
    : option (session store body) :=
  match resolve routes GET path with
  | Some (health_check_endpoint, _) => Some (health_check store)
  | Some (list_rdmcs_endpoint, _) =>
      Some (list_rdmcs store db (query_param query "subject")
                       (query_param query "license_")
                       (query_param query "container_concept"))
  | Some (get_rdmc_endpoint, params) =>
      option_map (get_rdmc store db) (path_param params "external_id")
  | Some (rdmcs_by_contributor_endpoint, _) =>
      Some (rdmcs_by_contributor store db (query_param query "orcid")
                                 (query_param query "email"))
  | Some (ingest_rdmc_endpoint, _) | None => None
  end.

(** The handler call that serves a POST request with a valid body. *)
Definition serve_post (path : list string) (payload : RdmcIn.t)
    : option (session store body) :=
  match resolve routes POST path with
  | Some (ingest_rdmc_endpoint, _) =>
      Some (rdmc <~ ingest_rdmc fmt store db payload ;; ret (Detail rdmc))
  | _ => None
  end.

End Serving.

(** The status of the response to a request whose handler raised: an
    [HTTPException] gives its own status, any other exception the
    server error 500. *)
Definition status_code (e : error) : Z :=
  match e with
  | Exn (HTTPException status _) => status
  | _ => 500
  end.

(** *** Sample requests and a sample database *)

Definition person (first last : string) : json :=
  JObj [("first_name", JStr first); ("last_name", JStr last)].

(** Three contributors. *)
Definition manifest_A : dict :=
  [("RDMC Title", JStr "A");
   ("RDMC Metadata",
    JObj [("Contributors",
           JArr [person "Ada" "Lovelace"; person "Grace" "Hopper";
                 person "Alan" "Turing"])])].

(** One contributor. *)
Definition manifest_B : dict :=
  [("title", JStr "B");
   ("RDMC Metadata", JObj [("Contributors", JArr [person "Edsger" "Dijkstra"])])].

Definition payload (external_id : string) (pid : option string) (manifest : dict)
    : RdmcIn.t :=
  {| RdmcIn.external_id := external_id;
     RdmcIn.external_id_scheme := None;
     RdmcIn.pid := pid;
     RdmcIn.pid_scheme := None;
     RdmcIn.manifest := manifest |}.

(** A database that holds nothing and accepts every operation; its
    state counts the operations that reached it. *)
Definition idle : backend nat :=
  {| execute := fun _ n => (Done [], S n);
     add_rdmc := fun _ n => (Done tt, S n);
     add_contributor := fun _ n => (Done tt, S n);
     flush := fun r n => (Done r, S n);
     delete_contributors := fun _ n => (Done tt, S n);
     commit := fun n => (Done tt, S n);
     refresh := fun r n => (Done r, S n) |}.

(** A process that has not yet used its mappers, on [idle]. *)
Definition fresh : world nat := {| mappers := first_use; database := 0%nat |}.

End Api.

(* ================================================================== *)
(** ** Facts about the Python primitives *)
(* ================================================================== *)

Module PyFacts.

Lemma bind_returns {A B : Type} (m : outcome A) (k : A -> outcome B) (b : B) :
  bind m k = Returns b -> exists a, m = Returns a /\ k a = Returns b.
Proof.
  destruct m as [a | e]; simpl; intros H; [eauto | discriminate].
Qed.

Lemma returns_true {A : Type} (m : outcome A) :
  returns m = true <-> exists a, m = Returns a.
Proof.
  destruct m; simpl; split; intros H; eauto; try discriminate.
  destruct H as [a H]; discriminate.
Qed.

Lemma py_or_falsy (a b : json) : truthy a = false -> py_or a b = b.
Proof. unfold py_or; intros ->; reflexivity. Qed.

Lemma py_or_truthy (a b : json) : truthy a = true -> py_or a b = a.
Proof. unfold py_or; intros ->; reflexivity. Qed.

(** A missing key reads as the default, which [or] then replaces by the
    same default: [d.get(k, dflt) or dflt] is [d.get(k) or dflt]. *)
Lemma py_or_default (d : dict) (k : string) (dflt : json) :
  truthy dflt = false ->
  py_or (dict_get_default d k dflt) dflt = py_or (dict_get d k) dflt.
Proof.
  intros Hd. unfold dict_get.
  induction d as [| [k' v] d IH]; simpl.
  - unfold py_or. rewrite Hd. reflexivity.
  - destruct (k' =? k); [reflexivity | exact IH].
Qed.

Lemma truthy_default (d : dict) (k : string) (dflt : json) :
  truthy dflt = false ->
  truthy (dict_get_default d k dflt) = truthy (dict_get d k).
Proof.
  intros Hd. unfold dict_get.
  induction d as [| [k' v] d IH]; simpl; [exact Hd |].
  destruct (k' =? k); [reflexivity | exact IH].
Qed.

Lemma entries_default (d : dict) (k : string) :
  dict_get_default d k (JArr []) = dict_get d k
  \/ (dict_get_default d k (JArr []) = JArr [] /\ dict_get d k = JNull).
Proof.
  unfold dict_get.
  induction d as [| [k' v] d IH]; simpl; [right; split; reflexivity |].
  destruct (k' =? k); [left; reflexivity | exact IH].
Qed.

(** [d[k]] reads what [d.get(k)] reads whenever the latter is not
    [None]. *)
Lemma dict_getitem_truthy (d : dict) (k : string) :
  truthy (dict_get d k) = true -> dict_getitem d k = Returns (dict_get d k).
Proof.
  unfold dict_get.
  induction d as [| [k' v] d IH]; simpl; [discriminate |].
  destruct (k' =? k); [reflexivity | exact IH].
Qed.

Lemma rstrip_empty_iff (s : string) : rstrip s = "" <-> blank s = true.
Proof.
  induction s as [| c s IH]; simpl; [tauto |].
  destruct (rstrip s) eqn:E.
  - destruct (is_space c); simpl.
    + tauto.
    + split; discriminate.
  - split; [discriminate |].
    intros H. apply andb_prop in H. destruct H as [_ H].
    apply IH in H. discriminate.
Qed.

Lemma blank_lstrip (s : string) : blank (lstrip s) = blank s.
Proof.
  induction s as [| c s IH]; simpl; [reflexivity |].
  destruct (is_space c) eqn:E; simpl; [exact IH | rewrite E; reflexivity].
Qed.

Lemma strip_empty_iff (s : string) : strip s = "" <-> blank s = true.
Proof.
  unfold strip. rewrite rstrip_empty_iff. rewrite blank_lstrip. tauto.
Qed.

Lemma blank_append (a b : string) : blank (a ++ b) = blank a && blank b.
Proof.
  induction a as [| c a IH]; simpl; [reflexivity |].
  rewrite IH. rewrite andb_assoc. reflexivity.
Qed.

Lemma lstrip_head (s : string) :
  lstrip s = "" \/ exists c r, lstrip s = String c r /\ is_space c = false.
Proof.
  induction s as [| c s IH]; simpl; [left; reflexivity |].
  destruct (is_space c) eqn:E; [exact IH | right; eauto].
Qed.

Lemma rstrip_head (c : ascii) (r : string) :
  is_space c = false -> exists r', rstrip (String c r) = String c r'.
Proof.
  intros E. simpl. destruct (rstrip r); [rewrite E |]; eauto.
Qed.

(** What [strip] returns is empty or starts with a character that is not
    whitespace. *)
Lemma strip_blank (s : string) : blank (strip s) = true -> strip s = "".
Proof.
  unfold strip. destruct (lstrip_head s) as [-> | (c & r & -> & E)].
  - reflexivity.
  - destruct (rstrip_head c r E) as [r' ->]. simpl. rewrite E. discriminate.
Qed.

Lemma append_empty (a b : string) : (a ++ b)%string = "" -> a = "" /\ b = "".
Proof.
  destruct a; simpl; [auto | discriminate].
Qed.

Lemma nonempty_append_r (a b : string) :
  Mapping.nonempty b = true -> Mapping.nonempty (a ++ b) = true.
Proof.
  unfold Mapping.nonempty. intros H.
  destruct (String.eqb_spec (a ++ b) ""); [| reflexivity].
  apply append_empty in e. destruct e as [_ ->]. discriminate.
Qed.

Lemma nonempty_true (s : string) : Mapping.nonempty s = true <-> s <> "".
Proof.
  unfold Mapping.nonempty. destruct (String.eqb_spec s ""); simpl; split;
    congruence.
Qed.

(** Joining fragments none of which is empty gives a text that is not
    empty. *)
Lemma join_nonempty (sep p : string) (ps : list string) :
  Mapping.nonempty p = true -> Mapping.nonempty (join sep (p :: ps)) = true.
Proof.
  intros H. unfold join. simpl. destruct ps as [| q ps]; [exact H |].
  unfold Mapping.nonempty in *.
  destruct (String.eqb_spec (p ++ sep ++ String.concat sep (q :: ps)) "");
    [| reflexivity].
  apply append_empty in e. destruct e as [-> _]. discriminate.
Qed.

Lemma truthy_text_chars (s : string) :
  truthy (JStr s) = true ->
  exists c cs, list_ascii_of_string s = c :: cs.
Proof.
  destruct s; simpl; [discriminate | eauto].
Qed.

End PyFacts.

(* ================================================================== *)
(** ** The mapper against its declarative form *)
(* ================================================================== *)

Module MappingFacts.

Import Mapping PyFacts.

(** Reading an optional text ([(x or "").strip()], [(x or "").lower()]):
    it succeeds exactly on a missing, empty or text value. *)
Lemma text_read (norm : string -> string) (x : json) :
  match py_or x (JStr "") with
  | JStr s => Returns (norm s)
  | _ => Raises AttributeError
  end
  = if absent_or is_text x
    then Returns (match py_or x (JStr "") with JStr s => norm s | _ => "" end)
    else Raises AttributeError.
Proof.
  unfold py_or, absent_or.
  remember (truthy x) as t eqn:E. clear E.
  destruct t, x; reflexivity.
Qed.

Lemma strip_read (x : json) :
  str_strip (py_or x (JStr ""))
  = if absent_or is_text x
    then Returns (match py_or x (JStr "") with JStr s => strip s | _ => "" end)
    else Raises AttributeError.
Proof. exact (text_read strip x). Qed.

Lemma lower_read (x : json) :
  str_lower (py_or x (JStr ""))
  = if absent_or is_text x
    then Returns (match py_or x (JStr "") with JStr s => lower s | _ => "" end)
    else Raises AttributeError.
Proof. exact (text_read lower x). Qed.

Section Contributors.

Variable fmt : json -> string.

(** One iteration of the contributor loop appends the row of the entry
    and, when it is not empty, its display fragment; it raises on an
    entry that is not an object or whose names are not text. *)
Lemma contributor_step_spec (pos : nat) (c : json)
    (acc : list contributor_row * list string) :
  contributor_step fmt pos c acc
  = if contributor_shaped c
    then Returns (fst acc ++ [spec_row pos c],
                  if nonempty (spec_fragment fmt c)
                  then snd acc ++ [spec_fragment fmt c] else snd acc)
    else Raises AttributeError.
Proof.
  destruct c as [| b | n | bits | s | l | d]; try reflexivity.
  unfold contributor_step, contributor_shaped, object_with, get, get_default.
  cbn [bind]. fold (dict_get d "first_name"). fold (dict_get d "last_name").
  rewrite (strip_read (dict_get d "first_name")).
  destruct (absent_or is_text (dict_get d "first_name")); [| reflexivity].
  cbn [bind andb]. rewrite (strip_read (dict_get d "last_name")).
  destruct (absent_or is_text (dict_get d "last_name")); reflexivity.
Qed.

Lemma contributors_loop_spec (cs : list json) :
  forall (pos : nat) (acc : list contributor_row * list string),
    contributors_loop fmt cs pos acc
    = if forallb contributor_shaped cs
      then Returns (fst acc ++ spec_rows_from pos cs,
                    snd acc ++ spec_fragments fmt cs)
      else Raises AttributeError.
Proof.
  induction cs as [| c cs IH]; intros pos acc.
  - simpl. rewrite !app_nil_r. destruct acc; reflexivity.
  - cbn [contributors_loop forallb]. rewrite contributor_step_spec.
    destruct (contributor_shaped c); [| reflexivity].
    cbn [bind andb]. rewrite IH.
    destruct (forallb contributor_shaped cs); [| reflexivity].
    f_equal. cbn [fst snd spec_rows_from]. unfold spec_fragments.
    cbn [map filter].
    destruct (nonempty (spec_fragment fmt c)); rewrite <- !app_assoc; reflexivity.
Qed.

End Contributors.

(** An optional array ([x or []]) is read as its entries when [x] is
    missing, empty or an array; any other value makes the loop over it
    fail, at once or on its first item, which is then a string. *)
Lemma optional_array_cases (shaped : json -> bool) (x : json) :
  (py_or x (JArr []) = JArr (entries_of x)
   /\ absent_or (array_of shaped) x = forallb shaped (entries_of x))
  \/ (absent_or (array_of shaped) x = false
      /\ ((exists s rest, iterate (py_or x (JArr [])) = Returns (JStr s :: rest))
          \/ iterate (py_or x (JArr [])) = Raises TypeError)).
Proof.
  unfold py_or, absent_or.
  destruct x as [| b | n | bits | s | l | kv].
  - left. split; reflexivity.
  - destruct b; [right | left]; split; auto.
  - destruct (truthy (JInt n)); [right | left]; split; auto.
  - destruct (truthy (JFloat bits)); [right | left]; split; auto.
  - destruct s as [| c s]; [left | right]; split; auto.
    left. simpl. eauto.
  - destruct l as [| c l]; left; split; reflexivity.
  - destruct kv as [| [k v] kv]; [left | right]; split; auto.
    left. simpl. eauto.
Qed.

Lemma resource_step_spec (item : json) (f : flags) :
  resource_step item f
  = if resource_shaped item then Returns (mark_resource item f)
    else Raises AttributeError.
Proof.
  destruct item as [| b | n | bits | s | l | d]; try reflexivity.
  unfold resource_step, resource_shaped, object_with, get, get_default.
  cbn [bind]. fold (dict_get d "resource type").
  rewrite (lower_read (dict_get d "resource type")).
  destruct (absent_or is_text (dict_get d "resource type")); reflexivity.
Qed.

Lemma resources_loop_spec (items : list json) :
  forall f : flags,
    resources_loop items f
    = if forallb resource_shaped items then Returns (mark_resources items f)
      else Raises AttributeError.
Proof.
  induction items as [| item items IH]; intros f; [reflexivity |].
  cbn [resources_loop forallb]. rewrite resource_step_spec.
  destruct (resource_shaped item); [| reflexivity].
  cbn [bind andb]. rewrite IH. reflexivity.
Qed.

(** The [files] or [folders] loop of one artifact, from the value found
    under the key, followed by the rest [k] of the iteration. *)
Lemma resources_of_value (x : json) (f : flags) (k : flags -> outcome flags) :
  (absent_or (array_of resource_shaped) x = true ->
   bind (iterate (py_or x (JArr [])))
        (fun items => bind (resources_loop items f) k)
   = k (mark_resources (entries_of x) f))
  /\ (absent_or (array_of resource_shaped) x = false ->
      returns (bind (iterate (py_or x (JArr [])))
                    (fun items => bind (resources_loop items f) k)) = false).
Proof.
  destruct (optional_array_cases resource_shaped x) as [[Hv Hs] | [Hs Hi]].
  - rewrite Hv, Hs. cbn [iterate bind]. rewrite resources_loop_spec.
    split; intros ->; reflexivity.
  - rewrite Hs. split; [discriminate |]. intros _.
    destruct Hi as [(s & rest & ->) | ->]; reflexivity.
Qed.

Lemma sized_len (x : json) :
  truthy x = true -> is_sized x = true ->
  exists n, len x = Returns n /\ (0 <? n)%nat = true.
Proof.
  destruct x as [| b | n | bits | s | l | kv]; simpl; try discriminate;
    intros Ht _.
  - destruct s; [discriminate | simpl; eauto].
  - destruct l; [discriminate | simpl; eauto].
  - destruct kv; [discriminate | simpl; eauto].
Qed.

Lemma unsized_len (x : json) : is_sized x = false -> len x = Raises TypeError.
Proof.
  destruct x; simpl; intros H; try reflexivity; discriminate.
Qed.

(** One iteration of the artifact loop marks the flags of the entry; it
    raises on an entry that is not of the shape the loop reads. *)
Lemma artifact_step_spec (art : json) (f : flags) :
  (artifact_shaped art = true ->
   artifact_step art f = Returns (mark_artifact art f))
  /\ (artifact_shaped art = false -> returns (artifact_step art f) = false).
Proof.
  destruct art as [| b | n | bits | s | l | d];
    try (split; [discriminate | reflexivity]).
  unfold artifact_step, artifact_shaped, object_with, get, get_default, mark_artifact.
  cbn [bind field_of]. fold (dict_get d "access_level"). fold (dict_get d "links").
  rewrite (lower_read (dict_get d "access_level")).
  destruct (absent_or is_text (dict_get d "access_level"));
    [| split; [discriminate | reflexivity]].
  cbn [bind andb].
  rewrite !py_or_default by reflexivity.
  fold (text_of lower (JObj d) "access_level").
  fold (access_level_of (JObj d)). fold (mark_access (JObj d) f).
  destruct (absent_or (array_of resource_shaped) (dict_get d "files")) eqn:Efiles.
  2:{ split; [discriminate |]. intros _.
      apply (proj2 (resources_of_value _ _ _) Efiles). }
  rewrite (proj1 (resources_of_value _ _ _) Efiles).
  destruct (absent_or (array_of resource_shaped) (dict_get d "folders")) eqn:Efolders.
  2:{ split; [discriminate |]. intros _.
      apply (proj2 (resources_of_value _ _ _) Efolders). }
  rewrite (proj1 (resources_of_value _ _ _) Efolders).
  cbn [andb]. unfold mark_links, present, absent_or. cbn [field_of].
  destruct (truthy (dict_get d "links")) eqn:Et; cbn [negb orb].
  - cbn [getitem]. rewrite (dict_getitem_truthy d "links" Et). cbn [bind].
    destruct (is_sized (dict_get d "links")) eqn:Es.
    + destruct (sized_len _ Et Es) as (n & Hl & Hn).
      rewrite Hl. cbn [bind]. rewrite Hn.
      split; [reflexivity | discriminate].
    + rewrite (unsized_len _ Es). split; [discriminate | reflexivity].
  - split; [reflexivity | discriminate].
Qed.

Lemma artifacts_loop_spec (arts : list json) :
  forall f : flags,
    (forallb artifact_shaped arts = true ->
     artifacts_loop arts f = Returns (mark_artifacts arts f))
    /\ (forallb artifact_shaped arts = false ->
        returns (artifacts_loop arts f) = false).
Proof.
  induction arts as [| art arts IH]; intros f.
  - split; [reflexivity | discriminate].
  - cbn [artifacts_loop forallb].
    destruct (artifact_step_spec art f) as [Hok Hbad].
    destruct (artifact_shaped art).
    + rewrite (Hok eq_refl). cbn [bind andb]. apply IH.
    + split; [discriminate |]. intros _.
      specialize (Hbad eq_refl). destruct (artifact_step art f); [discriminate | reflexivity].
Qed.

(** *** What the marks do to each flag *)

Ltac by_level lvl :=
  destruct (String.eqb_spec lvl "public") as [-> |];
  [| destruct (String.eqb_spec lvl "restricted") as [-> |];
     [| destruct (String.eqb_spec lvl "private") as [-> |]]];
  cbn; rewrite ?orb_true_r, ?orb_false_r; repeat split; reflexivity.

Lemma mark_access_flags (art : json) (f : flags) :
  let g := mark_access art f in
  has_public g = has_public f || (access_level_of art =? "public")
  /\ has_restricted g = has_restricted f || (access_level_of art =? "restricted")
  /\ has_private g = has_private f || (access_level_of art =? "private")
  /\ has_data g = has_data f
  /\ has_software g = has_software f
  /\ has_links_ g = has_links_ f.
Proof.
  unfold mark_access. generalize (access_level_of art) as lvl. intros lvl.
  by_level lvl.
Qed.

Lemma mark_resource_flags (item : json) (f : flags) :
  let g := mark_resource item f in
  has_public g = has_public f
  /\ has_restricted g = has_restricted f
  /\ has_private g = has_private f
  /\ has_data g = has_data f || (text_of lower item "resource type" =? "data")
  /\ has_software g
     = has_software f || (text_of lower item "resource type" =? "software")
  /\ has_links_ g = has_links_ f.
Proof.
  unfold mark_resource. generalize (text_of lower item "resource type") as rt.
  intros rt.
  destruct (String.eqb_spec rt "data") as [-> |];
    [| destruct (String.eqb_spec rt "software") as [-> |]];
    cbn; rewrite ?orb_true_r, ?orb_false_r; repeat split; reflexivity.
Qed.

Lemma mark_resources_flags (items : list json) :
  forall f : flags,
    let g := mark_resources items f in
    has_public g = has_public f
    /\ has_restricted g = has_restricted f
    /\ has_private g = has_private f
    /\ has_data g
       = has_data f
         || existsb (fun r => text_of lower r "resource type" =? "data") items
    /\ has_software g
       = has_software f
         || existsb (fun r => text_of lower r "resource type" =? "software") items
    /\ has_links_ g = has_links_ f.
Proof.
  induction items as [| item items IH]; intros f; cbn.
  - rewrite !orb_false_r. repeat split; reflexivity.
  - destruct (IH (mark_resource item f)) as (H1 & H2 & H3 & H4 & H5 & H6).
    destruct (mark_resource_flags item f) as (K1 & K2 & K3 & K4 & K5 & K6).
    unfold mark_resources in *. cbn in *.
    rewrite H1, H2, H3, H4, H5, H6, K1, K2, K3, K4, K5, K6, !orb_assoc.
    repeat split; reflexivity.
Qed.

Lemma mark_artifact_flags (art : json) (f : flags) :
  let g := mark_artifact art f in
  has_public g = has_public f || (access_level_of art =? "public")
  /\ has_restricted g = has_restricted f || (access_level_of art =? "restricted")
  /\ has_private g = has_private f || (access_level_of art =? "private")
  /\ has_data g
     = has_data f
       || existsb (fun r => text_of lower r "resource type" =? "data")
                  (resources_of art)
  /\ has_software g
     = has_software f
       || existsb (fun r => text_of lower r "resource type" =? "software")
                  (resources_of art)
  /\ has_links_ g = has_links_ f || present (field_of art "links").
Proof.
  unfold mark_artifact, resources_of. cbn zeta.
  set (f1 := mark_access art f).
  set (f2 := mark_resources (entries_of (field_of art "files")) f1).
  set (f3 := mark_resources (entries_of (field_of art "folders")) f2).
  destruct (mark_access_flags art f) as (A1 & A2 & A3 & A4 & A5 & A6).
  destruct (mark_resources_flags (entries_of (field_of art "files")) f1)
    as (B1 & B2 & B3 & B4 & B5 & B6).
  destruct (mark_resources_flags (entries_of (field_of art "folders")) f2)
    as (C1 & C2 & C3 & C4 & C5 & C6).
  cbn zeta in *. fold f1 in A1, A2, A3, A4, A5, A6.
  fold f2 in B1, B2, B3, B4, B5, B6. fold f3 in C1, C2, C3, C4, C5, C6.
  rewrite !existsb_app, !orb_assoc.
  rewrite <- A1, <- A2, <- A3, <- A4, <- A5, <- A6.
  rewrite <- B1, <- B2, <- B3, <- B4, <- B5, <- B6.
  rewrite <- C1, <- C2, <- C3, <- C4, <- C5, <- C6.
  unfold mark_links. destruct (present (field_of art "links")); cbn;
    rewrite ?orb_true_r, ?orb_false_r; repeat split; reflexivity.
Qed.

Lemma mark_artifacts_flags (arts : list json) :
  forall f : flags,
    let g := mark_artifacts arts f in
    has_public g = has_public f || some_access_level "public" arts
    /\ has_restricted g = has_restricted f || some_access_level "restricted" arts
    /\ has_private g = has_private f || some_access_level "private" arts
    /\ has_data g = has_data f || some_resource_type "data" arts
    /\ has_software g = has_software f || some_resource_type "software" arts
    /\ has_links_ g = has_links_ f || some_links arts.
Proof.
  unfold some_access_level, some_resource_type, some_links, mark_artifacts.
  induction arts as [| art arts IH]; intros f; cbn [fold_left existsb].
  - cbn zeta. rewrite !orb_false_r. repeat split; reflexivity.
  - destruct (IH (mark_artifact art f)) as (H1 & H2 & H3 & H4 & H5 & H6).
    destruct (mark_artifact_flags art f) as (K1 & K2 & K3 & K4 & K5 & K6).
    cbn zeta in *.
    rewrite H1, H2, H3, H4, H5, H6, K1, K2, K3, K4, K5, K6, !orb_assoc.
    repeat split; reflexivity.
Qed.

Lemma metadata_shape (x : json) :
  absent_or metadata_shaped x = metadata_shaped (py_or x (JObj [])).
Proof.
  unfold absent_or, py_or. destruct (truthy x); reflexivity.
Qed.

Lemma spec_title_or (m : dict) :
  py_or (py_or (dict_get m "RDMC Title") (dict_get m "title")) (JStr "(no title)")
  = spec_title m.
Proof.
  unfold spec_title, present, py_or.
  destruct (truthy (dict_get m "RDMC Title")) eqn:E1; cbv iota.
  - rewrite E1. reflexivity.
  - destruct (truthy (dict_get m "title")) eqn:E2; reflexivity.
Qed.

Section Derive.
Variable fmt : json -> string.

(** The mapper returns exactly on the well-shaped documents, and there
    it returns the declarative mapping. *)
Lemma derive_spec (m : dict) :
  (well_shaped m = true ->
   derive_fields_from_manifest fmt m = Returns (spec_fields fmt m, spec_rows m))
  /\ (well_shaped m = false ->
      returns (derive_fields_from_manifest fmt m) = false).
Proof.
  unfold derive_fields_from_manifest, well_shaped, spec_fields, spec_rows,
    spec_contributors, spec_artifacts.
  rewrite spec_title_or. rewrite !py_or_default by reflexivity.
  rewrite metadata_shape. fold (spec_metadata m).
  destruct (spec_metadata m) as [| b | n | bits | s | l | d];
    try (split; [discriminate | reflexivity]).
  unfold get, get_default. cbn [bind field_of metadata_shaped object_with].
  rewrite !py_or_default by reflexivity.
  fold (dict_get d "Description"). fold (dict_get d "Subject").
  fold (dict_get d "License"). fold (dict_get d "Keywords").
  fold (dict_get d "container-concept").
  destruct (optional_array_cases contributor_shaped (dict_get d "Contributors"))
    as [[Hv Hs] | [Hs Hi]].
  2:{ rewrite Hs. split; [discriminate |]. intros _.
      destruct (len (py_or (dict_get d "Contributors") (JArr [])));
        [cbn [bind] | reflexivity].
      destruct Hi as [(s & rest & ->) | ->]; [| reflexivity].
      cbn [bind]. rewrite contributors_loop_spec. reflexivity. }
  rewrite Hv, Hs. cbn [len iterate bind]. rewrite contributors_loop_spec.
  destruct (forallb contributor_shaped (entries_of (dict_get d "Contributors")));
    [| split; [discriminate | reflexivity]].
  cbn [bind fst snd app andb].
  destruct (optional_array_cases artifact_shaped (dict_get m "Artifacts Details"))
    as [[Kv Ks] | [Ks Ki]].
  2:{ rewrite Ks. split; [discriminate |]. intros _.
      destruct (len (py_or (dict_get m "Artifacts Details") (JArr [])));
        [cbn [bind] | reflexivity].
      destruct Ki as [(s & rest & ->) | ->]; reflexivity. }
  rewrite Kv, Ks. cbn [len iterate bind].
  destruct (artifacts_loop_spec (entries_of (dict_get m "Artifacts Details"))
                                no_flags) as [Hok Hbad].
  destruct (forallb artifact_shaped (entries_of (dict_get m "Artifacts Details"))).
  - split; [intros _ | discriminate]. rewrite (Hok eq_refl). cbn [bind].
    destruct (mark_artifacts_flags (entries_of (dict_get m "Artifacts Details"))
                                   no_flags) as (F1 & F2 & F3 & F4 & F5 & F6).
    cbn zeta in *. rewrite F1, F2, F3, F4, F5, F6. reflexivity.
  - split; [discriminate | intros _].
    specialize (Hbad eq_refl).
    destruct (artifacts_loop (entries_of (dict_get m "Artifacts Details")) no_flags);
      [discriminate | reflexivity].
Qed.
Lemma derive_returns (m : dict) (f : rdmc_fields) (rows : list contributor_row) :
  derive_fields_from_manifest fmt m = Returns (f, rows) ->
  well_shaped m = true /\ f = spec_fields fmt m /\ rows = spec_rows m.
Proof.
  intros H. destruct (derive_spec m) as [Hok Hbad].
  destruct (well_shaped m).
  - rewrite (Hok eq_refl) in H. inversion H. auto.
  - rewrite H in Hbad. discriminate (Hbad eq_refl).
Qed.

Lemma derive_returns_iff (m : dict) :
  returns (derive_fields_from_manifest fmt m) = well_shaped m.
Proof.
  destruct (derive_spec m) as [Hok Hbad].
  destruct (well_shaped m); [rewrite (Hok eq_refl); reflexivity | auto].
Qed.

End Derive.

Lemma text_of_strip_blank (c : json) (k : string) :
  blank (text_of strip c k) = true -> text_of strip c k = "".
Proof.
  unfold text_of. destruct (py_or (field_of c k) (JStr "")); try reflexivity.
  apply strip_blank.
Qed.

Lemma text_of_absent (norm : string -> string) (c : json) (k : string) :
  norm "" = "" -> truthy (field_of c k) = false -> text_of norm c k = "".
Proof.
  intros Hn H. unfold text_of. rewrite (py_or_falsy _ _ H). exact Hn.
Qed.

Lemma fragment_names (c : json) :
  strip (text_of strip c "first_name" ++ " " ++ text_of strip c "last_name") = ""
  <-> text_of strip c "first_name" = "" /\ text_of strip c "last_name" = "".
Proof.
  rewrite strip_empty_iff, !blank_append. cbn [blank].
  split.
  - intros H. apply andb_prop in H. destruct H as [Ha H].
    apply andb_prop in H. destruct H as [_ Hb].
    split; apply text_of_strip_blank; assumption.
  - intros [-> ->]. reflexivity.
Qed.

Section Fragments.
Variable fmt : json -> string.

Lemma spec_fragment_empty_iff (c : json) :
  spec_fragment fmt c = ""
  <-> text_of strip c "first_name" = "" /\ text_of strip c "last_name" = ""
      /\ present (field_of c "role") = false
      /\ present (field_of c "orcid") = false
      /\ present (field_of c "affiliation") = false.
Proof.
  unfold spec_fragment. cbn zeta.
  destruct (present (field_of c "affiliation")).
  { split; [intros H | intros (_ & _ & _ & _ & H); discriminate].
    apply append_empty in H. destruct H as [_ H]. discriminate. }
  destruct (present (field_of c "orcid")).
  { split; [intros H | intros (_ & _ & _ & H & _); discriminate].
    apply append_empty in H. destruct H as [_ H]. discriminate. }
  destruct (present (field_of c "role")).
  { split; [intros H | intros (_ & _ & H & _); discriminate].
    apply append_empty in H. destruct H as [_ H]. discriminate. }
  rewrite fragment_names. tauto.
Qed.

Lemma spec_fragments_nonempty (cs : list json) :
  Forall (fun p => nonempty p = true) (spec_fragments fmt cs).
Proof.
  unfold spec_fragments. apply Forall_forall. intros p Hp.
  apply filter_In in Hp. tauto.
Qed.

Lemma spec_contributors_text_not_empty (cs : list json) :
  spec_contributors_text fmt cs <> Some "".
Proof.
  unfold spec_contributors_text.
  pose proof (spec_fragments_nonempty cs) as H.
  destruct (spec_fragments fmt cs) as [| p ps]; [discriminate |].
  inversion H as [| ? ? Hp _]; subst.
  intros E. pose proof (join_nonempty "; " p ps Hp) as Hj.
  assert (E' : join "; " (p :: ps) = "") by congruence.
  rewrite E' in Hj. discriminate.
Qed.

End Fragments.

End MappingFacts.

(* ================================================================== *)
(** ** Properties of the manifest mapper *)
(* ================================================================== *)

Module MapperProperties.

Import Mapping PyFacts MappingFacts.

(** C4.  Whenever the mapper returns, [contributors_text] is built as
    described: each contributor entry gives the fragment
    "{first} {last}" trimmed, followed by " (role)", ", ORCID: {orcid}"
    and ", {affiliation}" for those of the three that are present
    (neither missing, null nor empty); a fragment is empty exactly when
    both names are empty and none of the three is present, and such
    fragments are skipped; the remaining ones are joined with "; ", and
    the result is null, never the empty string, when none remains. *)
Theorem contributors_text_from_fragments
    (fmt : json -> string) (m : dict) (f : rdmc_fields)
    (rows : list contributor_row) :
  derive_fields_from_manifest fmt m = Returns (f, rows) ->
  contributors_text f
  = match filter nonempty (map (spec_fragment fmt) (spec_contributors m)) with
    | [] => None
    | p :: ps => Some (join "; " (p :: ps))
    end
  /\ (forall c : json,
        spec_fragment fmt c = ""
        <-> text_of strip c "first_name" = ""
            /\ text_of strip c "last_name" = ""
            /\ present (field_of c "role") = false
            /\ present (field_of c "orcid") = false
            /\ present (field_of c "affiliation") = false)
  /\ contributors_text f <> Some "".
Proof.
  intros H. apply derive_returns in H. destruct H as (_ & -> & _).
  cbn [spec_fields contributors_text]. split; [| split].
  - unfold spec_contributors_text, spec_fragments.
    destruct (filter nonempty (map (spec_fragment fmt) (spec_contributors m)));
      reflexivity.
  - apply spec_fragment_empty_iff.
  - apply spec_contributors_text_not_empty.
Qed.

Lemma contributors_text_from_fragments_witness :
  contributors_text (spec_fields fmt_text sample_manifest)
  = Some "Ada Lovelace (PI), ORCID: 0000-0001, Dept X; Grace Hopper".
Proof.
  refine (eq_trans
            (proj1 (contributors_text_from_fragments fmt_text sample_manifest
                      (spec_fields fmt_text sample_manifest)
                      (spec_rows sample_manifest) _)) _);
    reflexivity.
Defined.

(** The fragment of the description's sample contributor, for every
    conversion that leaves text as it is. *)
Example ada_fragment (fmt : json -> string) :
  (forall s, fmt (JStr s) = s) ->
  spec_fragment fmt ada = "Ada Lovelace (PI), ORCID: 0000-0001, Dept X".
Proof.
  intros Hfmt. unfold spec_fragment, ada. cbn. rewrite !Hfmt. reflexivity.
Qed.



(** A document with one public and one private entry, run through the
    mapper. *)
Example public_and_private (fmt : json -> string) :
  exists f rows,
    derive_fields_from_manifest fmt
      [("Artifacts Details",
        JArr [JObj [("access_level", JStr "public")];
              JObj [("access_level", JStr "private")]])]
    = Returns (f, rows)
    /\ has_public_artifacts f = true
    /\ has_restricted_artifacts f = false
    /\ has_private_artifacts f = true.
Proof.
  eexists. eexists. split; [reflexivity |]. cbn. auto.
Qed.

(** C6.  The mapper is total on documents whose optional parts are
    missing, null, empty or of the shape it reads: it returns, and what
    is missing or empty comes out as its default: null summary fields,
    zero counts, no rows and a null text without metadata or
    contributors, the empty string for a missing name, zero count and
    all six flags false without artifact details, no data, software or
    links flag when no artifact has a file, folder or link. *)
Theorem mapper_total_on_sparse_documents (fmt : json -> string) (m : dict) :
  well_shaped m = true ->
  exists f rows,
    derive_fields_from_manifest fmt m = Returns (f, rows)
    /\ rows = spec_rows m
    /\ (truthy (dict_get m "RDMC Metadata") = false ->
        description f = JNull /\ subject f = JNull /\ license f = JNull
        /\ keywords_raw f = JNull /\ container_concept f = JNull)
    /\ (truthy (field_of (spec_metadata m) "Contributors") = false ->
        contributors_count f = 0 /\ contributors_text f = None /\ rows = [])
    /\ (forall (i : nat) (c : json),
          (truthy (field_of c "first_name") = false ->
           first_name (spec_row i c) = "")
          /\ (truthy (field_of c "last_name") = false ->
              last_name (spec_row i c) = ""))
    /\ (truthy (dict_get m "Artifacts Details") = false ->
        artifact_count f = 0
        /\ has_public_artifacts f = false /\ has_restricted_artifacts f = false
        /\ has_private_artifacts f = false /\ has_data_resources f = false
        /\ has_software_resources f = false /\ has_links f = false)
    /\ ((forall art, In art (spec_artifacts m) -> resources_of art = []) ->
        has_data_resources f = false /\ has_software_resources f = false)
    /\ ((forall art, In art (spec_artifacts m) ->
                     truthy (field_of art "links") = false) ->
        has_links f = false).
Proof.
  intros Hs. exists (spec_fields fmt m), (spec_rows m).
  split; [exact (proj1 (derive_spec fmt m) Hs) |].
  split; [reflexivity |].
  assert (Hempty : forall x, truthy x = false -> entries_of x = []).
  { intros x. destruct x as [| | | | | l |]; try reflexivity.
    destruct l; [reflexivity | discriminate]. }
  cbn [spec_fields description subject license keywords_raw container_concept
       contributors_count contributors_text artifact_count
       has_public_artifacts has_restricted_artifacts has_private_artifacts
       has_data_resources has_software_resources has_links].
  split; [| split; [| split; [| split; [| split]]]].
  - intros H. unfold spec_metadata. rewrite (py_or_falsy _ _ H).
    repeat split; reflexivity.
  - intros H. unfold spec_rows, spec_contributors.
    rewrite (Hempty _ H). repeat split; reflexivity.
  - intros i c. split; intros H; cbn [spec_row first_name last_name];
      apply text_of_absent; auto.
  - intros H. unfold spec_artifacts. rewrite (Hempty _ H).
    repeat split; reflexivity.
  - intros H. unfold some_resource_type.
    split; apply not_true_is_false; intros E; apply existsb_exists in E;
      destruct E as (art & Hin & E); rewrite (H art Hin) in E; discriminate.
  - intros H. unfold some_links, present. apply not_true_is_false. intros E.
    apply existsb_exists in E. destruct E as (art & Hin & E).
    rewrite (H art Hin) in E. discriminate.
Qed.

Lemma mapper_total_on_sparse_documents_witness :
  exists f rows,
    derive_fields_from_manifest fmt_text hollow_manifest = Returns (f, rows)
    /\ rows = [spec_row 0 (JObj [])].
Proof.
  destruct (mapper_total_on_sparse_documents fmt_text hollow_manifest eq_refl)
    as (f & rows & H & Hrows & _).
  exists f, rows. split; [exact H | exact Hrows].
Defined.

(** Outside these documents the mapper raises: a section of another
    type is not replaced by its default. *)
Example malformed_sections_raise (fmt : json -> string) :
  derive_fields_from_manifest fmt [("RDMC Metadata", JStr "n/a")]
  = Raises AttributeError
  /\ derive_fields_from_manifest fmt
       [("RDMC Metadata", JObj [("Contributors", JInt 3)])]
     = Raises TypeError
  /\ derive_fields_from_manifest fmt
       [("RDMC Metadata",
         JObj [("Contributors", JArr [JObj [("first_name", JInt 7)]])])]
     = Raises AttributeError
  /\ derive_fields_from_manifest fmt
       [("Artifacts Details", JArr [JObj [("access_level", JBool true)]])]
     = Raises AttributeError.
Proof. repeat split; reflexivity. Qed.

(** C8.  Whenever the mapper returns, [artifact_count] is the number of
    entries of the array under "Artifacts Details" (none when missing or
    empty) and [artifacts_raw] is the value under "Artifacts", whatever
    it is; a document with a non-empty "Artifacts Details" array and no
    "Artifacts" key gets a positive count and a null [artifacts_raw]. *)
Theorem artifact_count_and_raw
    (fmt : json -> string) (m : dict) (f : rdmc_fields)
    (rows : list contributor_row) :
  derive_fields_from_manifest fmt m = Returns (f, rows) ->
  artifact_count f = List.length (entries_of (dict_get m "Artifacts Details"))
  /\ artifacts_raw f = dict_get m "Artifacts"
  /\ (forall (art : json) (arts : list json),
        dict_get m "Artifacts Details" = JArr (art :: arts) ->
        has_key m "Artifacts" = false ->
        0 < artifact_count f /\ artifacts_raw f = JNull).
Proof.
  intros H. apply derive_returns in H. destruct H as (_ & -> & _).
  cbn [spec_fields artifact_count artifacts_raw]. unfold spec_artifacts.
  split; [reflexivity | split; [reflexivity |]].
  intros art arts Hd Hk. rewrite Hd. split; [cbn; lia |].
  clear Hd. unfold dict_get. induction m as [| [k v] m IH]; [reflexivity |].
  cbn in Hk |- *. destruct (k =? "Artifacts"); [discriminate | auto].
Qed.

Lemma artifact_count_and_raw_witness :
  artifact_count (spec_fields fmt_text sample_manifest) = 2
  /\ artifacts_raw (spec_fields fmt_text sample_manifest) = JNull.
Proof.
  destruct (artifact_count_and_raw fmt_text sample_manifest
              (spec_fields fmt_text sample_manifest)
              (spec_rows sample_manifest) eq_refl) as (Hc & Hr & _).
  split; [exact Hc | exact Hr].
Defined.

End MapperProperties.

(* ================================================================== *)
(** ** The title of a record *)
(* ================================================================== *)

Module MapperTitle.

Import Mapping PyFacts MappingFacts.

(** C9.  Whenever the mapper returns, the title it gives the record is
    the value under "RDMC Title" if that is not empty, else the value
    under "title" if that is not empty, else the placeholder
    "(no title)". *)
Theorem title_falls_back
    (fmt : json -> string) (m : dict) (f : rdmc_fields)
    (rows : list contributor_row) :
  derive_fields_from_manifest fmt m = Returns (f, rows) ->
  title f =
    if truthy (dict_get m "RDMC Title") then dict_get m "RDMC Title"
    else if truthy (dict_get m "title") then dict_get m "title"
    else JStr "(no title)".
Proof.
  intros H. apply derive_returns in H. destruct H as (_ & -> & _).
  reflexivity.
Qed.

Lemma title_falls_back_witness :
  title (spec_fields fmt_text sample_manifest) = JStr "Engines"
  /\ title (spec_fields fmt_text
              [("RDMC Title", JStr ""); ("title", JStr "Pumps")]) = JStr "Pumps"
  /\ title (spec_fields fmt_text hollow_manifest) = JStr "(no title)".
Proof.
  split; [| split].
  - exact (title_falls_back fmt_text sample_manifest
             (spec_fields fmt_text sample_manifest)
             (spec_rows sample_manifest) eq_refl).
  - exact (title_falls_back fmt_text
             [("RDMC Title", JStr ""); ("title", JStr "Pumps")]
             (spec_fields fmt_text
                [("RDMC Title", JStr ""); ("title", JStr "Pumps")])
             (spec_rows [("RDMC Title", JStr ""); ("title", JStr "Pumps")])
             eq_refl).
  - exact (title_falls_back fmt_text hollow_manifest
             (spec_fields fmt_text hollow_manifest)
             (spec_rows hollow_manifest) eq_refl).
Defined.

End MapperTitle.

(* ================================================================== *)
(** ** Facts about the mappers and the handlers *)
(* ================================================================== *)

Module ApiFacts.

Import Orm Api.

Local Open Scope session_scope.

(** The declarations of models.py cannot be configured:
    [RdmcContributor.rdmc] asks for a new property [contributors] on
    [Rdmc], which declares one itself. *)
Lemma configure_registry : configure registry = Failed ArgumentError.
Proof. reflexivity. Qed.

Lemma Rdmc_has_contributors : has_property Orm.Rdmc "contributors" = true.
Proof. reflexivity. Qed.

(** Naming the declared property instead of creating it is accepted. *)
Lemma configure_with_back_populates :
  configure registry_with_back_populates = Done tt.
Proof. reflexivity. Qed.

Lemma check_configure_raises (proc : process) :
  check_configure proc = Failed (mapper_error proc).
Proof. destruct proc; reflexivity. Qed.

Lemma failed_failed {store : Type} (w : world store) :
  failed (failed w) = failed w.
Proof. reflexivity. Qed.

Lemma mappers_failed {store : Type} (w : world store) :
  mapper_error (mappers (failed w)) = InvalidRequestError.
Proof. reflexivity. Qed.

Section Handlers.

Variable fmt : json -> string.
Variable store : Type.
Variable db : backend store.

Lemma configured_raises (w : world store) :
  configured w = (Failed (mapper_error (mappers w)), failed w).
Proof. unfold configured. rewrite check_configure_raises. reflexivity. Qed.

Lemma then_configured {A : Type} (k : unit -> session store A) (w : world store) :
  then_ configured k w = (Failed (mapper_error (mappers w)), failed w).
Proof. unfold then_. rewrite configured_raises. reflexivity. Qed.

Lemma scalars_raises (stmt : statement) (w : world store) :
  scalars store db stmt w = (Failed (mapper_error (mappers w)), failed w).
Proof. apply then_configured. Qed.

Lemma then_scalars {A : Type} (stmt : statement)
    (k : list Rdmc.t -> session store A) (w : world store) :
  then_ (scalars store db stmt) k w
  = (Failed (mapper_error (mappers w)), failed w).
Proof. unfold then_. rewrite scalars_raises. reflexivity. Qed.

Lemma ingest_rdmc_raises (payload : RdmcIn.t) (w : world store) :
  ingest_rdmc fmt store db payload w
  = (Failed (mapper_error (mappers w)), failed w).
Proof. apply then_scalars. Qed.

Lemma get_rdmc_raises (external_id : string) (w : world store) :
  get_rdmc store db external_id w
  = (Failed (mapper_error (mappers w)), failed w).
Proof. apply then_scalars. Qed.

Lemma list_rdmcs_raises (subject license container_concept : option string)
    (w : world store) :
  list_rdmcs store db subject license container_concept w
  = (Failed (mapper_error (mappers w)), failed w).
Proof. apply then_scalars. Qed.

Lemma rdmcs_by_contributor_cases (orcid email : option string) (w : world store) :
  rdmcs_by_contributor store db orcid email w
  = if negb (truthy_opt orcid) && negb (truthy_opt email)
    then (Failed (Exn (HTTPException 400 "Provide at least one of: orcid, email")),
          w)
    else (Failed (mapper_error (mappers w)), failed w).
Proof.
  unfold rdmcs_by_contributor.
  destruct (negb (truthy_opt orcid) && negb (truthy_opt email));
    [reflexivity | apply then_scalars].
Qed.

End Handlers.

Lemma status_code_mapper_error (proc : process) :
  status_code (mapper_error proc) = 500%Z.
Proof. destruct proc; reflexivity. Qed.

(** The assignments to [pid], [pid_scheme] and [pid_status]. *)
Lemma assign_pid (payload : RdmcIn.t) (fields : Mapping.rdmc_fields)
    (rdmc : Rdmc.t) :
  Rdmc.pid (assign payload fields rdmc)
  = (if truthy_opt (RdmcIn.pid payload) then RdmcIn.pid payload
     else Rdmc.pid rdmc)
  /\ Rdmc.pid_scheme (assign payload fields rdmc)
     = (if truthy_opt (RdmcIn.pid_scheme payload) then RdmcIn.pid_scheme payload
        else Rdmc.pid_scheme rdmc)
  /\ Rdmc.pid_status (assign payload fields rdmc)
     = (if truthy_opt (RdmcIn.pid payload) then Some "minted"
        else Rdmc.pid_status rdmc).
Proof. repeat split. Qed.

End ApiFacts.

(* ================================================================== *)
(** ** The ingest path and the contributor search *)
(* ================================================================== *)

Module RegistryProperties.

Import Orm Api ApiFacts.

(** C1.  Ingesting a payload and then a second one, whatever their
    manifests and identifiers, replaces no contributor row: the first
    [ingest_rdmc] raises the configuration error of the mappers at its
    first query, the second raises [InvalidRequestError] there, both
    are answered 500, and the database is as it was before the two. *)
Theorem ingest_twice_stores_no_contributor
    (fmt : json -> string) (store : Type) (db : backend store)
    (A B : RdmcIn.t) (w : world store) :
  let first := ingest_rdmc fmt store db A w in
  let second := ingest_rdmc fmt store db B (snd first) in
  fst first = Failed (mapper_error (mappers w))
  /\ fst second = Failed InvalidRequestError
  /\ status_code (mapper_error (mappers w)) = 500%Z
  /\ status_code InvalidRequestError = 500%Z
  /\ database (snd second) = database w.
Proof.
  cbv zeta. rewrite !ingest_rdmc_raises. cbn [fst snd].
  rewrite status_code_mapper_error. repeat split.
Qed.

(** Manifest A with three contributors, then manifest B with one, for
    the same identifier, on a database that accepts everything: no
    operation reaches the database. *)
Example A_then_B :
  let first := ingest_rdmc Mapping.fmt_text nat idle
                 (payload "x" None manifest_A) fresh in
  let second := ingest_rdmc Mapping.fmt_text nat idle
                  (payload "x" None manifest_B) (snd first) in
  fst first = Failed ArgumentError
  /\ fst second = Failed InvalidRequestError
  /\ database (snd second) = 0%nat.
Proof. repeat split. Qed.

(** C2.  No ingest sets [pid], [pid_scheme] or [pid_status] on a
    record: [ingest_rdmc] raises at its first query, before the
    assignments, and leaves the database as it was.  The assignments
    themselves overwrite [pid] and [pid_scheme] by a value of the
    payload that is not empty and keep the old value otherwise, and set
    [pid_status] to "minted" when the payload's [pid] is not empty. *)
Theorem pid_is_never_minted
    (fmt : json -> string) (store : Type) (db : backend store)
    (p : RdmcIn.t) (w : world store)
    (fields : Mapping.rdmc_fields) (rdmc : Rdmc.t) :
  fst (ingest_rdmc fmt store db p w) = Failed (mapper_error (mappers w))
  /\ status_code (mapper_error (mappers w)) = 500%Z
  /\ database (snd (ingest_rdmc fmt store db p w)) = database w
  /\ Rdmc.pid (assign p fields rdmc)
     = (if truthy_opt (RdmcIn.pid p) then RdmcIn.pid p else Rdmc.pid rdmc)
  /\ Rdmc.pid_scheme (assign p fields rdmc)
     = (if truthy_opt (RdmcIn.pid_scheme p) then RdmcIn.pid_scheme p
        else Rdmc.pid_scheme rdmc)
  /\ Rdmc.pid_status (assign p fields rdmc)
     = (if truthy_opt (RdmcIn.pid p) then Some "minted"
        else Rdmc.pid_status rdmc).
Proof.
  rewrite ingest_rdmc_raises, status_code_mapper_error. cbn [fst snd].
  split; [reflexivity | split; [reflexivity | split; [reflexivity |]]].
  apply assign_pid.
Qed.

(** A first ingest with [pid] "10.1/ABC": no record results. *)
Example ingest_with_pid :
  ingest_rdmc Mapping.fmt_text nat idle
    (payload "x" (Some "10.1/ABC") manifest_A) fresh
  = (Failed ArgumentError, failed fresh).
Proof. reflexivity. Qed.

(** C3.  A GET request for /rdmcs/by-contributor, whatever its query,
    is served by [get_rdmc] with the identifier "by-contributor", which
    raises the configuration error of the mappers: the answer is 500.
    The handler [rdmcs_by_contributor] itself raises the 400 exception,
    leaving everything as it was, when neither [orcid] nor [email] is
    given or both are empty, and the configuration error otherwise. *)
Theorem by_contributor_request_is_answered_by_get_rdmc
    (fmt : json -> string) (store : Type) (db : backend store)
    (query : list (string * string)) (orcid email : option string)
    (w : world store) :
  serve_get store db ["rdmcs"; "by-contributor"] query
  = Some (get_rdmc store db "by-contributor")
  /\ get_rdmc store db "by-contributor" w
     = (Failed (mapper_error (mappers w)), failed w)
  /\ status_code (mapper_error (mappers w)) = 500%Z
  /\ rdmcs_by_contributor store db orcid email w
     = if negb (truthy_opt orcid) && negb (truthy_opt email)
       then (Failed (Exn (HTTPException 400
                            "Provide at least one of: orcid, email")), w)
       else (Failed (mapper_error (mappers w)), failed w).
Proof.
  split; [reflexivity |].
  split; [apply get_rdmc_raises |].
  split; [apply status_code_mapper_error |].
  apply rdmcs_by_contributor_cases.
Qed.

(** C7.  Ingesting the same payload twice in a row: both calls of
    [ingest_rdmc] raise at the first query and return no record, the
    second changes nothing at all, and the database is after both as it
    was before, so no [updated_at] changes. *)
Theorem reingest_changes_nothing
    (fmt : json -> string) (store : Type) (db : backend store)
    (p : RdmcIn.t) (w : world store) :
  let first := ingest_rdmc fmt store db p w in
  let second := ingest_rdmc fmt store db p (snd first) in
  fst first = Failed (mapper_error (mappers w))
  /\ fst second = Failed InvalidRequestError
  /\ snd second = snd first
  /\ database (snd first) = database w.
Proof.
  cbv zeta. rewrite !ingest_rdmc_raises. cbn [fst snd]. repeat split.
Qed.


End RegistryProperties.

(* ================================================================== *)
(** ** Further properties of the manifest mapper *)
(* ================================================================== *)

Module MapperExtras.

Import Mapping PyFacts MappingFacts.

Lemma rstrip_idempotent (s : string) : rstrip (rstrip s) = rstrip s.
Proof.
  induction s as [| c s IH]; [reflexivity |].
  cbn [rstrip]. destruct (rstrip s) as [| d r] eqn:E.
  - destruct (is_space c) eqn:Ec; [reflexivity |].
    cbn [rstrip]. rewrite Ec. reflexivity.
  - cbn [rstrip]. cbn [rstrip] in IH. rewrite IH. reflexivity.
Qed.

Lemma strip_idempotent (s : string) : strip (strip s) = strip s.
Proof.
  unfold strip. destruct (lstrip_head s) as [-> | (c & r & -> & E)].
  - reflexivity.
  - destruct (rstrip_head c r E) as [r' Hr]. rewrite Hr.
    cbn [lstrip]. rewrite E. rewrite <- Hr. apply rstrip_idempotent.
Qed.

Lemma text_of_strip_trimmed (c : json) (k : string) :
  strip (text_of strip c k) = text_of strip c k.
Proof.
  unfold text_of. destruct (py_or (field_of c k) (JStr "")); try reflexivity.
  apply strip_idempotent.
Qed.

Lemma spec_rows_from_nth (cs : list json) :
  forall (start i : nat) (c : json),
    nth_error cs i = Some c ->
    nth_error (spec_rows_from start cs) i = Some (spec_row (start + i) c).
Proof.
  induction cs as [| c0 cs IH]; intros start i c H.
  - destruct i; discriminate.
  - destruct i as [| i]; cbn [nth_error spec_rows_from] in *.
    + inversion H; subst. rewrite Nat.add_0_r. reflexivity.
    + rewrite (IH (S start) i c H). f_equal. f_equal. lia.
Qed.

Lemma append_assoc (a b c : string) : ((a ++ b) ++ c = a ++ (b ++ c))%string.
Proof.
  induction a as [| x a IH]; [reflexivity |]. cbn. rewrite IH. reflexivity.
Qed.

Lemma append_nil_r (a : string) : (a ++ "")%string = a.
Proof.
  induction a as [| x a IH]; [reflexivity |]. cbn. rewrite IH. reflexivity.
Qed.

Lemma trimmed_head (a : string) :
  strip a = a -> a <> "" -> exists c r, a = String c r /\ is_space c = false.
Proof.
  unfold strip. intros H Hne.
  destruct (lstrip_head a) as [E | (c & r & E & Ec)]; rewrite E in H.
  - cbn in H. congruence.
  - destruct (rstrip_head c r Ec) as [r' Hr]. rewrite Hr in H. eauto.
Qed.

Lemma trimmed_rstrip (a : string) : strip a = a -> rstrip a = a.
Proof.
  intros H. destruct (String.eqb_spec a "") as [-> | Hne]; [reflexivity |].
  destruct (trimmed_head a H Hne) as (c & r & -> & Ec).
  unfold strip in H. cbn [lstrip] in H. rewrite Ec in H. exact H.
Qed.

Lemma rstrip_app_keep (x y : string) :
  rstrip y <> "" -> rstrip (x ++ y) = (x ++ rstrip y)%string.
Proof.
  intros Hy. induction x as [| c x IH]; [reflexivity |].
  cbn [append rstrip]. rewrite IH.
  destruct (x ++ rstrip y)%string eqn:E; [| reflexivity].
  apply append_empty in E. tauto.
Qed.

Lemma rstrip_app_blank (x y : string) :
  blank y = true -> rstrip (x ++ y) = rstrip x.
Proof.
  intros Hy. induction x as [| c x IH].
  - cbn. apply rstrip_empty_iff. exact Hy.
  - cbn [append rstrip]. rewrite IH. reflexivity.
Qed.

(** Two trimmed names around one space, trimmed again: a missing name
    leaves no stray space. *)
Lemma strip_names (first last : string) :
  strip first = first -> strip last = last ->
  strip (first ++ " " ++ last)
  = if first =? "" then last
    else if last =? "" then first
    else (first ++ " " ++ last)%string.
Proof.
  intros Hf Hl.
  destruct (String.eqb_spec first "") as [-> | Hfne].
  - unfold strip in *. cbn. exact Hl.
  - destruct (trimmed_head first Hf Hfne) as (c & r & -> & Ec).
    unfold strip. cbn [append lstrip]. rewrite Ec.
    destruct (String.eqb_spec last "") as [-> | Hlne].
    + change (rstrip (String c r ++ " ") = String c r).
      rewrite rstrip_app_blank by reflexivity. apply trimmed_rstrip. exact Hf.
    + assert (Hr : rstrip (" " ++ last) = (" " ++ last)%string).
      { rewrite rstrip_app_keep; rewrite (trimmed_rstrip last Hl); auto. }
      change (rstrip (String c r ++ (" " ++ last))
              = (String c r ++ (" " ++ last))%string).
      rewrite rstrip_app_keep; rewrite Hr; [reflexivity | discriminate].
Qed.

(** X1.  Whenever the mapper returns, it returns one row per entry of
    the contributors array, in the order of the array: the row of the
    entry at index [i] has position [i], carries the entry's [email],
    [affiliation], [orcid] and [role] unchanged (null when missing), and
    its names are the entry's names stripped, the empty string when the
    name is missing, null or empty; a stored name never has leading or
    trailing whitespace.  [contributors_count] is the number of rows. *)
Theorem contributor_rows_follow_entries
    (fmt : json -> string) (m : dict) (f : rdmc_fields)
    (rows : list contributor_row) :
  derive_fields_from_manifest fmt m = Returns (f, rows) ->
  List.length rows = List.length (spec_contributors m)
  /\ contributors_count f = List.length rows
  /\ forall (i : nat) (c : json),
       nth_error (spec_contributors m) i = Some c ->
       exists row,
         nth_error rows i = Some row
         /\ position row = i
         /\ email row = field_of c "email"
         /\ affiliation row = field_of c "affiliation"
         /\ orcid row = field_of c "orcid"
         /\ role row = field_of c "role"
         /\ (forall s, field_of c "first_name" = JStr s -> first_name row = strip s)
         /\ (forall s, field_of c "last_name" = JStr s -> last_name row = strip s)
         /\ (truthy (field_of c "first_name") = false -> first_name row = "")
         /\ (truthy (field_of c "last_name") = false -> last_name row = "")
         /\ strip (first_name row) = first_name row
         /\ strip (last_name row) = last_name row.
Proof.
  intros H. apply derive_returns in H. destruct H as (_ & -> & ->).
  unfold spec_rows. cbn [spec_fields contributors_count].
  assert (Hlen : forall cs start,
             List.length (spec_rows_from start cs) = List.length cs).
  { induction cs as [| c cs IH]; intros start; [reflexivity |].
    cbn. rewrite IH. reflexivity. }
  split; [apply Hlen |]. split; [symmetry; apply Hlen |].
  intros i c Hc. exists (spec_row i c).
  split; [exact (spec_rows_from_nth _ 0 i c Hc) |].
  cbn [spec_row position email affiliation orcid role first_name last_name].
  assert (Htext : forall k s, field_of c k = JStr s -> text_of strip c k = strip s).
  { intros k s E. unfold text_of, py_or. rewrite E. cbn [truthy].
    destruct (String.eqb_spec s "") as [-> | _]; reflexivity. }
  repeat split; auto using text_of_strip_trimmed.
  - intros Hn. apply text_of_absent; auto.
  - intros Hn. apply text_of_absent; auto.
Qed.

Lemma contributor_rows_follow_entries_witness :
  List.length (spec_rows sample_manifest) = 3
  /\ contributors_count (spec_fields fmt_text sample_manifest) = 3.
Proof.
  destruct (contributor_rows_follow_entries fmt_text sample_manifest
              (spec_fields fmt_text sample_manifest)
              (spec_rows sample_manifest) eq_refl) as (Hl & Hc & _).
  split; [exact Hl | exact Hc].
Defined.

(** X2.  The display fragment in closed form.  For an entry the loop
    accepts, the piece it builds is the name part followed by the
    suffixes of the fields that are not empty; the name part is the
    stripped first and last name separated by one space, or just the one
    that is not empty, so a missing name leaves no leading or trailing
    space.  The piece is appended to the parts unless it is empty. *)
Theorem fragment_closed_form
    (fmt : json -> string) (pos : nat) (c : json)
    (acc : list contributor_row * list string) :
  contributor_shaped c = true ->
  let first := text_of strip c "first_name" in
  let last := text_of strip c "last_name" in
  let names :=
    if first =? "" then last
    else if last =? "" then first
    else (first ++ " " ++ last)%string in
  let suffix :=
    ((if truthy (field_of c "role")
      then " (" ++ fmt (field_of c "role") ++ ")" else "")
     ++ (if truthy (field_of c "orcid")
         then ", ORCID: " ++ fmt (field_of c "orcid") else "")
     ++ (if truthy (field_of c "affiliation")
         then ", " ++ fmt (field_of c "affiliation") else ""))%string in
  contributor_step fmt pos c acc
  = Returns (fst acc ++ [spec_row pos c],
             if negb ((names ++ suffix)%string =? "")
             then snd acc ++ [(names ++ suffix)%string] else snd acc).
Proof.
  intros Hs first last names suffix.
  rewrite contributor_step_spec, Hs.
  assert (E : spec_fragment fmt c = (names ++ suffix)%string).
  { unfold spec_fragment, present, names, suffix, first, last.
    rewrite (strip_names _ _ (text_of_strip_trimmed c "first_name")
                             (text_of_strip_trimmed c "last_name")).
    destruct (truthy (field_of c "role")),
             (truthy (field_of c "orcid")),
             (truthy (field_of c "affiliation"));
      repeat (rewrite ?append_assoc, ?append_nil_r; cbn [append]);
      reflexivity. }
  unfold nonempty. rewrite E. reflexivity.
Qed.

Lemma fragment_closed_form_witness :
  contributor_step fmt_text 1 grace ([], [])
  = Returns ([spec_row 1 grace], ["Grace Hopper"]).
Proof.
  exact (fragment_closed_form fmt_text 1 grace ([], []) eq_refl).
Defined.

(** X3.  Whenever the mapper returns, [has_data_resources] is true
    exactly when some entry of the [files] or of the [folders] list of
    some artifact has the lower-cased resource type "data", and
    [has_software_resources] likewise for "software"; files and folders
    of all artifacts count alike, and other resource types set
    nothing. *)
Theorem resource_flags_from_files_and_folders
    (fmt : json -> string) (m : dict) (f : rdmc_fields)
    (rows : list contributor_row) :
  derive_fields_from_manifest fmt m = Returns (f, rows) ->
  let declares (kind : string) :=
    exists art item,
      In art (entries_of (dict_get m "Artifacts Details"))
      /\ (In item (entries_of (field_of art "files"))
          \/ In item (entries_of (field_of art "folders")))
      /\ text_of lower item "resource type" = kind in
  (has_data_resources f = true <-> declares "data")
  /\ (has_software_resources f = true <-> declares "software").
Proof.
  intros H declares. apply derive_returns in H. destruct H as (_ & -> & _).
  cbn [spec_fields has_data_resources has_software_resources].
  assert (Hkind : forall kind,
             some_resource_type kind (spec_artifacts m) = true <-> declares kind).
  { intros kind. unfold some_resource_type, declares, spec_artifacts, resources_of.
    rewrite existsb_exists. split.
    - intros (art & Hin & Hr). apply existsb_exists in Hr.
      destruct Hr as (item & Hi & Hk). apply in_app_or in Hi.
      apply String.eqb_eq in Hk. eauto 6.
    - intros (art & item & Hin & Hi & Hk). exists art. split; [exact Hin |].
      apply existsb_exists. exists item. split; [apply in_or_app; exact Hi |].
      apply String.eqb_eq. exact Hk. }
  split; apply Hkind.
Qed.

Lemma resource_flags_from_files_and_folders_witness :
  has_data_resources (spec_fields fmt_text sample_manifest) = true.
Proof.
  apply (proj1 (resource_flags_from_files_and_folders fmt_text sample_manifest
                  (spec_fields fmt_text sample_manifest)
                  (spec_rows sample_manifest) eq_refl)).
  exists (JObj [("access_level", JStr "Public");
                ("files", JArr [JObj [("resource type", JStr "Data")]])]).
  exists (JObj [("resource type", JStr "Data")]).
  cbn. auto.
Defined.

(** X4.  Whenever the mapper returns, [has_links] is true exactly when
    some artifact has a [links] value that is not empty (a non-empty
    list, string or object); a missing, null or empty [links] sets
    nothing. *)
Theorem links_flag_from_nonempty_links
    (fmt : json -> string) (m : dict) (f : rdmc_fields)
    (rows : list contributor_row) :
  derive_fields_from_manifest fmt m = Returns (f, rows) ->
  (has_links f = true
   <-> exists art,
       In art (entries_of (dict_get m "Artifacts Details"))
       /\ truthy (field_of art "links") = true)
  /\ (forall art,
        In art (entries_of (dict_get m "Artifacts Details")) ->
        truthy (field_of art "links") = true ->
        is_sized (field_of art "links") = true).
Proof.
  intros H. apply derive_returns in H. destruct H as (Hs & -> & _).
  cbn [spec_fields has_links]. split.
  - unfold some_links, present, spec_artifacts. apply existsb_exists.
  - intros art Hin Ht.
    unfold well_shaped in Hs. apply andb_prop in Hs. destruct Hs as [_ Hs].
    unfold absent_or in Hs.
    destruct (dict_get m "Artifacts Details") as [| | | | | arts |];
      try contradiction.
    destruct arts as [| a arts]; [contradiction |].
    cbn [truthy negb orb array_of] in Hs.
    rewrite forallb_forall in Hs. specialize (Hs art Hin).
    destruct art as [| | | | | | d]; try discriminate.
    unfold artifact_shaped, object_with in Hs.
    apply andb_prop in Hs. destruct Hs as [_ Hs].
    unfold absent_or in Hs. cbn [field_of] in *. rewrite Ht in Hs. exact Hs.
Qed.

Lemma links_flag_from_nonempty_links_witness :
  has_links (spec_fields fmt_text sample_manifest) = true.
Proof.
  apply (proj1 (links_flag_from_nonempty_links fmt_text sample_manifest
                  (spec_fields fmt_text sample_manifest)
                  (spec_rows sample_manifest) eq_refl)).
  exists (JObj [("access_level", JStr "private");
                ("links", JArr [JStr "https://example.org"])]).
  cbn. auto.
Defined.

(** X5.  The mapper returns exactly on the documents in which every
    optional part is missing, null, empty or of the type it is read
    as, and raises on all others; whether it raises does not depend on
    the values it only passes through or formats. *)
Theorem mapper_raises_exactly_on_other_shapes
    (fmt : json -> string) (m : dict) :
  (well_shaped m = true ->
   exists f rows, derive_fields_from_manifest fmt m = Returns (f, rows))
  /\ (well_shaped m = false ->
      exists e, derive_fields_from_manifest fmt m = Raises e)
  /\ (forall fmt' : json -> string,
        returns (derive_fields_from_manifest fmt' m)
        = returns (derive_fields_from_manifest fmt m)).
Proof.
  split; [| split].
  - intros H. pose proof (proj1 (derive_spec fmt m) H). eauto.
  - intros H. pose proof (proj2 (derive_spec fmt m) H) as Hr.
    destruct (derive_fields_from_manifest fmt m) as [a | e];
      [discriminate | eauto].
  - intros fmt'. rewrite !derive_returns_iff. reflexivity.
Qed.

Lemma mapper_raises_exactly_on_other_shapes_witness :
  (exists f rows,
      derive_fields_from_manifest fmt_text hollow_manifest = Returns (f, rows))
  /\ (exists e,
        derive_fields_from_manifest fmt_text
          [("Artifacts Details", JArr [JObj [("files", JInt 1)]])] = Raises e).
Proof.
  split.
  - exact (proj1 (mapper_raises_exactly_on_other_shapes fmt_text hollow_manifest)
             eq_refl).
  - exact (proj1 (proj2 (mapper_raises_exactly_on_other_shapes fmt_text
                           [("Artifacts Details",
                             JArr [JObj [("files", JInt 1)]])]))
             eq_refl).
Defined.

(** X6.  Whenever the mapper returns, the title it returns is not null
    and not empty: it is a value of the document that is not empty, or
    the placeholder. *)
Theorem title_is_never_empty
    (fmt : json -> string) (m : dict) (f : rdmc_fields)
    (rows : list contributor_row) :
  derive_fields_from_manifest fmt m = Returns (f, rows) ->
  truthy (title f) = true
  /\ (title f = dict_get m "RDMC Title" \/ title f = dict_get m "title"
      \/ title f = JStr "(no title)").
Proof.
  intros H. apply derive_returns in H. destruct H as (_ & -> & _).
  cbn [spec_fields title]. unfold spec_title, present.
  destruct (truthy (dict_get m "RDMC Title")) eqn:E1; [auto |].
  destruct (truthy (dict_get m "title")) eqn:E2; auto.
Qed.

Lemma title_is_never_empty_witness :
  truthy (title (spec_fields fmt_text hollow_manifest)) = true.
Proof.
  exact (proj1 (title_is_never_empty fmt_text hollow_manifest
                  (spec_fields fmt_text hollow_manifest)
                  (spec_rows hollow_manifest) eq_refl)).
Defined.

End MapperExtras.

(* ================================================================== *)
(** ** Further properties of the read endpoints and the router *)
(* ================================================================== *)

Module RegistryExtras.

Import Orm Api ApiFacts.

(** X7.  [get_rdmc] raises the configuration error of the mappers for
    every identifier, on every database: it returns no record and does
    not raise the 404 exception either; the answer is 500 and the
    database is as it was. *)
Theorem get_rdmc_always_raises
    (store : Type) (db : backend store) (external_id : string)
    (w : world store) :
  get_rdmc store db external_id w
  = (Failed (mapper_error (mappers w)), failed w)
  /\ status_code (mapper_error (mappers w)) = 500%Z
  /\ database (failed w) = database w.
Proof.
  rewrite get_rdmc_raises, status_code_mapper_error. repeat split.
Qed.

(** X8.  [list_rdmcs] raises the configuration error of the mappers
    for every combination of filters, on every database; the answer is
    500 and the database is as it was. *)
Theorem list_rdmcs_always_raises
    (store : Type) (db : backend store)
    (subject license container_concept : option string) (w : world store) :
  list_rdmcs store db subject license container_concept w
  = (Failed (mapper_error (mappers w)), failed w)
  /\ status_code (mapper_error (mappers w)) = 500%Z
  /\ database (failed w) = database w.
Proof.
  rewrite list_rdmcs_raises, status_code_mapper_error. repeat split.
Qed.

(** X9.  The route of [rdmcs_by_contributor] serves no request:
    whatever the method and the path, the router resolves as it does
    without that route; and a GET path /rdmcs/x, x not empty, is
    served by [get_rdmc] with the identifier x. *)
Theorem by_contributor_route_is_dead
    (method : http_method) (path : list string) (x : string) :
  resolve routes method path = resolve (removelast routes) method path
  /\ resolve routes GET ["rdmcs"; x]
     = if x =? "" then None
       else Some (get_rdmc_endpoint, [("external_id", x)]).
Proof.
  split.
  - destruct path as [| a [| b [| c rest]]]; cbn.
    + reflexivity.
    + destruct (a =? "rdmcs"); reflexivity.
    + destruct (a =? "rdmcs"); [| reflexivity].
      destruct (b =? "by-contributor") eqn:Eb.
      * apply String.eqb_eq in Eb. subst b. destruct method; reflexivity.
      * destruct (b =? ""); destruct method; reflexivity.
    + destruct (a =? "rdmcs"); [| reflexivity].
      destruct (b =? ""); destruct (b =? "by-contributor"); reflexivity.
  - cbn. destruct (x =? "") eqn:Ex; [| reflexivity].
    apply String.eqb_eq in Ex. subst x. reflexivity.
Qed.

End RegistryExtras.
